(** * Certificate anchoring: [lib/blockchain.ts] and its API routes

    A shallow embedding of the certificate-registry integration:
    - [generateCertificateHash] (canonical JSON of five fields, Keccak-256,
      0x-prefixed lowercase hex),
    - [storeCertificateOnBlockchain], [verifyCertificateOnBlockchain],
      [checkBlockchainConnection] (try/catch wrappers around the ledger
      client),
    - the route handlers [POST /api/blockchain/store],
      [GET] and [POST /api/blockchain/verify], [GET /api/blockchain/status].

    JavaScript strings are modelled by [string], read as the UTF-8 encoding
    of a well-formed JavaScript string (no lone surrogate);
    [ethers.toUtf8Bytes] is then the list of its bytes.  JavaScript numbers
    are modelled on the safe integers ([JsNumber z], [|z| < 2^53]), which
    [JSON.stringify] prints as base-10 digits; fractional and non-finite
    numbers are outside the model.  The one number the program computes,
    [Number(timestamp)], is the integer-valued double nearest to the ledger's
    integer ([Number_of_bigint]).  Values thrown by [ethers] and by the
    runtime are [Error] objects; only their [message] is read, and a missing
    message behaves under [||] as the empty one does.  [console.error] is
    not modelled.

    The route handlers all export [POST] or [GET]; here they are
    [POST_store], [GET_verify], [POST_verify] and [GET_status]. *)

From Stdlib Require Import ZArith List Bool Ascii String Lia Permutation.
From Stdlib Require Import DecimalString DecimalPos DecimalZ.
Import ListNotations.

Local Open Scope Z_scope.
Local Open Scope string_scope.

(* ================================================================= *)
(** ** Keccak-256 as [ethers.keccak256] computes it *)

Module Keccak.

Local Open Scope list_scope.

(** A lane is an unsigned 64-bit integer, the state is 25 lanes, lane
    [(x, y)] at index [x + 5 * y]. *)
Definition mask64 : Z := 0xFFFFFFFFFFFFFFFF.

Definition rol64 (a : Z) (n : Z) : Z :=
  Z.land (Z.lor (Z.shiftl a n) (Z.shiftr a (64 - n))) mask64.

Definition lane (st : list Z) (x y : nat) : Z :=
  nth ((x mod 5) + 5 * (y mod 5))%nat st 0.

Definition idx5 : list nat := [0; 1; 2; 3; 4]%nat.

(** Builds a state from a function of the coordinates, row by row. *)
Definition build (f : nat -> nat -> Z) : list Z :=
  flat_map (fun y => map (fun x => f x y) idx5) idx5.

Definition theta (st : list Z) : list Z :=
  let C x := Z.lxor (lane st x 0) (Z.lxor (lane st x 1)
              (Z.lxor (lane st x 2) (Z.lxor (lane st x 3) (lane st x 4)))) in
  let D x := Z.lxor (C (x + 4)%nat) (rol64 (C (x + 1)%nat) 1) in
  build (fun x y => Z.lxor (lane st x y) (D x)).

(** Rotation offsets, indexed [x + 5 * y]. *)
Definition rotation_offsets : list Z :=
  [  0;  1; 62; 28; 27;
    36; 44;  6; 55; 20;
     3; 10; 43; 25; 39;
    41; 45; 15; 21;  8;
    18;  2; 61; 56; 14 ].

(** rho and pi together: B[y, 2x+3y] = rol(A[x, y], r[x, y]); read backwards,
    the lane at [(X, Y)] comes from [x = X + 3 Y], [y = X]. *)
Definition rho_pi (st : list Z) : list Z :=
  build (fun X Y =>
    let x := ((X + 3 * Y) mod 5)%nat in
    let y := X in
    rol64 (lane st x y) (nth (x + 5 * y)%nat rotation_offsets 0)).

Definition chi (st : list Z) : list Z :=
  build (fun x y =>
    Z.lxor (lane st x y)
           (Z.land (Z.lxor (lane st (x + 1) y) mask64) (lane st (x + 2) y))).

Definition round_constants : list Z :=
  [ 0x0000000000000001; 0x0000000000008082; 0x800000000000808A;
    0x8000000080008000; 0x000000000000808B; 0x0000000080000001;
    0x8000000080008081; 0x8000000000008009; 0x000000000000008A;
    0x0000000000000088; 0x0000000080008009; 0x000000008000000A;
    0x000000008000808B; 0x800000000000008B; 0x8000000000008089;
    0x8000000000008003; 0x8000000000008002; 0x8000000000000080;
    0x000000000000800A; 0x800000008000000A; 0x8000000080008081;
    0x8000000000008080; 0x0000000080000001; 0x8000000080008008 ].

Definition iota (rc : Z) (st : list Z) : list Z :=
  match st with
  | a :: rest => Z.lxor a rc :: rest
  | [] => []
  end.

Definition round (st : list Z) (rc : Z) : list Z :=
  iota rc (chi (rho_pi (theta st))).

Definition keccak_f1600 (st : list Z) : list Z :=
  fold_left round round_constants st.

(** Little-endian lanes. *)
Definition lane_of_bytes (bs : list Z) : Z :=
  fold_right (fun b acc => Z.land b 255 + 256 * acc) 0 bs.

Definition bytes_of_lane (l : Z) : list Z :=
  map (fun k => Z.land (Z.shiftr l (8 * Z.of_nat k)) 255) (seq 0 8).

Fixpoint lanes_of_bytes (n : nat) (bs : list Z) : list Z :=
  match n with
  | O => []
  | S n' => lane_of_bytes (firstn 8 bs) :: lanes_of_bytes n' (skipn 8 bs)
  end.

(** Rate of Keccak-256: 1088 bits, 136 bytes, 17 lanes. *)
Definition rate : nat := 136.

Definition xor_block (st block : list Z) : list Z :=
  map (fun p => Z.lxor (fst p) (snd p))
      (combine st (lanes_of_bytes 17 block ++ repeat 0 8)).

(** Multi-rate padding with the original Keccak domain byte [0x01]:
    the message, then [0x01], zeros, and [0x80] or-ed into the last byte of
    the block. *)
Definition pad (msg : list Z) : list Z :=
  let q := (rate - (List.length msg mod rate))%nat in
  match q with
  | 1%nat => msg ++ [0x81]
  | _ => msg ++ [0x01] ++ repeat 0 (q - 2) ++ [0x80]
  end.

(** Absorbs [n] blocks of [rate] bytes. *)
Fixpoint absorb (n : nat) (st : list Z) (bs : list Z) : list Z :=
  match n with
  | O => st
  | S n' =>
      absorb n' (keccak_f1600 (xor_block st (firstn rate bs))) (skipn rate bs)
  end.

Definition initial_state : list Z := repeat 0 25.

(** The 32-byte digest: the first four lanes of the final state. *)
Definition keccak256_bytes (msg : list Z) : list Z :=
  let padded := pad msg in
  let st := absorb (List.length padded / rate) initial_state padded in
  flat_map (fun i => bytes_of_lane (nth i st 0)) [0; 1; 2; 3]%nat.

End Keccak.

(** [ethers.hexlify]: ["0x"] followed by two lowercase digits per byte. *)
Definition HexCharacters : string := "0123456789abcdef".

Definition hex_char (d : Z) : ascii :=
  match String.get (Z.to_nat d) HexCharacters with
  | Some c => c
  | None => "0"%char
  end.

Definition hex_of_bytes (bs : list Z) : string :=
  fold_right
    (fun v acc =>
       String (hex_char (Z.shiftr (Z.land v 0xf0) 4))
         (String (hex_char (Z.land v 0x0f)) acc))
    EmptyString bs.

Definition hexlify (bs : list Z) : string := "0x" ++ hex_of_bytes bs.

(** [ethers.toUtf8Bytes] on the UTF-8 reading of strings. *)
Definition toUtf8Bytes (s : string) : list Z :=
  map (fun c => Z.of_N (N_of_ascii c)) (list_ascii_of_string s).

(** [ethers.keccak256]. *)
Definition keccak256 (data : list Z) : string :=
  hexlify (Keccak.keccak256_bytes data).

(** [ethers.ZeroHash]. *)
Definition ZeroHash : string :=
  "0x0000000000000000000000000000000000000000000000000000000000000000".


(* ================================================================= *)
(** ** JavaScript values, as [request.json()] delivers them *)

#[warnings="-register-all"] Inductive JsValue : Type :=
| JsUndefined
| JsNull
| JsBool (b : bool)
| JsNumber (z : Z)
| JsString (s : string)
| JsArray (elems : list JsValue)
| JsObject (props : list (string * JsValue)).

(** A thrown [Error] object; only its [message] is ever read. *)
Record JsError : Type := { message : string }.

(** A JavaScript computation either completes with a value or throws. *)
Inductive Outcome (A : Type) : Type :=
| Ok (a : A)
| Throw (e : JsError).

Arguments Ok {A} a.
Arguments Throw {A} e.

(** [!v] is [negb (truthy v)]. *)
Definition truthy (v : JsValue) : bool :=
  match v with
  | JsUndefined | JsNull => false
  | JsBool b => b
  | JsNumber z => negb (z =? 0)%Z
  | JsString s => negb (s =? "")%string
  | JsArray _ | JsObject _ => true
  end.

Fixpoint lookup (name : string) (props : list (string * JsValue))
  : JsValue :=
  match props with
  | [] => JsUndefined
  | (k, v) :: rest => if (k =? name)%string then v else lookup name rest
  end.

(** [v[name]] for the property names this program reads (none of which is an
    index or [length]): a property of an object, [undefined] on the other
    values, and a [TypeError] on [null] and [undefined]. *)
Definition TypeError_read (what name : string) : JsError :=
  {| message := "Cannot read properties of " ++ what ++ " (reading '"
                ++ name ++ "')" |}.

Definition get_property (v : JsValue) (name : string) : Outcome JsValue :=
  match v with
  | JsUndefined => Throw (TypeError_read "undefined" name)
  | JsNull => Throw (TypeError_read "null" name)
  | JsObject props => Ok (lookup name props)
  | _ => Ok JsUndefined
  end.

(** *** [JSON.stringify] *)

Definition dquote : ascii := "034"%char.
Definition backslash : ascii := "092"%char.

Definition hex2 (n : Z) : string :=
  String (hex_char (Z.shiftr n 4)) (String (hex_char (Z.land n 15)) "").

(** One character of [QuoteJSONString]. *)
Definition quote_char (c : ascii) : string :=
  let n := Z.of_N (N_of_ascii c) in
  if (n =? 8)%Z then String backslash "b"
  else if (n =? 9)%Z then String backslash "t"
  else if (n =? 10)%Z then String backslash "n"
  else if (n =? 12)%Z then String backslash "f"
  else if (n =? 13)%Z then String backslash "r"
  else if (n =? 34)%Z then String backslash (String dquote "")
  else if (n =? 92)%Z then String backslash (String backslash "")
  else if (n <? 32)%Z then String backslash ("u00" ++ hex2 n)
  else String c "".

Fixpoint quote_chars (s : string) : string :=
  match s with
  | EmptyString => EmptyString
  | String c rest => quote_char c ++ quote_chars rest
  end.

Definition QuoteJSONString (s : string) : string :=
  String dquote (quote_chars s ++ String dquote "").

(** [Number::toString] on integer-valued numbers: base-10 digits. *)
Definition Number_toString (z : Z) : string :=
  NilZero.string_of_int (Z.to_int z).

(** [Number(b)] on a BigInt: the nearest double, ties to the even one; the
    integer itself when it has at most 53 bits.  The result is written as the
    integer the double stands for; the contract's [uint256] values are far
    below the largest double. *)
Definition Number_of_bigint (z : Z) : Z :=
  let a := Z.abs z in
  let shift := Z.log2 a + 1 - 53 in
  if (shift <=? 0)%Z then z
  else
    let q := Z.shiftr a shift in
    let r := a - Z.shiftl q shift in
    let half := Z.shiftl 1 (shift - 1) in
    let q' := if (half <? r)%Z || ((r =? half)%Z && Z.odd q) then q + 1
              else q in
    Z.sgn z * Z.shiftl q' shift.

(** [SerializeJSONProperty]: [None] stands for [undefined], which drops the
    property of an object and becomes [null] in an array.  The properties of
    an object are visited in the order of the list. *)
Fixpoint SerializeJSONProperty (v : JsValue) : option string :=
  match v with
  | JsUndefined => None
  | JsNull => Some "null"
  | JsBool true => Some "true"
  | JsBool false => Some "false"
  | JsNumber z => Some (Number_toString z)
  | JsString s => Some (QuoteJSONString s)
  | JsArray elems =>
      Some ("[" ++ String.concat ","
              (map (fun e => match SerializeJSONProperty e with
                             | Some t => t
                             | None => "null"
                             end) elems) ++ "]")
  | JsObject props =>
      Some ("{" ++ String.concat ","
              (flat_map (fun p => match SerializeJSONProperty (snd p) with
                                  | Some t => [QuoteJSONString (fst p) ++ ":" ++ t]
                                  | None => []
                                  end) props) ++ "}")
  end.

(** [JSON.stringify] of an object literal. *)
Definition JSON_stringify_object (props : list (string * JsValue)) : string :=
  match SerializeJSONProperty (JsObject props) with
  | Some t => t
  | None => ""
  end.

(* ================================================================= *)
(** ** [generateCertificateHash] *)

Definition bind_outcome {A B} (m : Outcome A) (k : A -> Outcome B)
  : Outcome B :=
  match m with
  | Ok a => k a
  | Throw e => Throw e
  end.

Notation "'let?' x ':=' m 'in' k" := (bind_outcome m (fun x => k))
  (at level 10, x name, m at level 100, k at level 200).

Definition generateCertificateHash (certificateData : JsValue)
  : Outcome string :=
  let? certificateNumber := get_property certificateData "certificateNumber" in
  let? recipientName := get_property certificateData "recipientName" in
  let? certificateType := get_property certificateData "certificateType" in
  let? issueDate := get_property certificateData "issueDate" in
  let? issuingEntityId := get_property certificateData "issuingEntityId" in
  let dataString :=
    JSON_stringify_object
      [ ("certificateNumber", certificateNumber);
        ("recipientName", recipientName);
        ("certificateType", certificateType);
        ("issueDate", issueDate);
        ("issuingEntityId", issuingEntityId) ] in
  Ok (keccak256 (toUtf8Bytes dataString)).

(* ================================================================= *)
(** ** The ledger client

    What [ethers] and the deployed [CertificateRegistry] contract do is not
    part of this program: it is a parameter.  [St] is the state of the world
    the client talks to (chain, node, network); constructors and calls may
    throw, transactions may change the state. *)

Record Ethers : Type := {
  St : Type;
  Provider : Type;
  Wallet : Type;
  Contract : Type;
  TransactionResponse : Type;
  (** [new ethers.JsonRpcProvider(BLOCKCHAIN_CONFIG.rpcUrl)] *)
  new_JsonRpcProvider : Outcome Provider;
  (** [new ethers.Wallet(BLOCKCHAIN_CONFIG.privateKey, provider)] *)
  new_Wallet : Provider -> Outcome Wallet;
  (** [new ethers.Contract(address, CERTIFICATE_REGISTRY_ABI, signerOrProvider)] *)
  new_Contract : Wallet + Provider -> Outcome Contract;
  (** [await contract.storeCertificate(certificateNumber, hashBytes32)] *)
  contract_storeCertificate :
    Contract -> JsValue -> string -> St -> Outcome TransactionResponse * St;
  (** [await tx.wait()], giving [receipt.hash] *)
  tx_wait : TransactionResponse -> St -> Outcome string * St;
  (** [await contract.verifyCertificate(certificateNumber)]: the stored
      hash as a hex string, the timestamp, the issuer address *)
  contract_verifyCertificate :
    Contract -> JsValue -> St -> Outcome (string * Z * string);
  (** [await contract.getCertificateHash(certificateNumber)] *)
  contract_getCertificateHash : Contract -> JsValue -> St -> Outcome string;
  (** [(await provider.getNetwork()).name] *)
  provider_getNetwork : Provider -> St -> Outcome string;
  (** [await provider.getBlockNumber()] *)
  provider_getBlockNumber : Provider -> St -> Outcome Z
}.

(** Results of the library functions; [None] is an absent ([undefined])
    property. *)
Record StoreResult : Type := {
  store_success : bool;
  store_transactionHash : option string;
  store_error : option string
}.

Record VerifyResult : Type := {
  verify_success : bool;
  verify_verified : bool;
  verify_blockchainHash : option string;
  verify_timestamp : option Z;
  verify_issuer : option string;
  verify_error : option string
}.

Record HashResult : Type := {
  hash_success : bool;
  hash_hash : option string;
  hash_error : option string
}.

Record ConnectionStatus : Type := {
  connected : bool;
  network : option string;
  blockNumber : option Z;
  connection_error : option string
}.

(** [NextResponse.json(body, { status })]. *)
Record Response : Type := {
  status : Z;
  body : JsValue
}.

Definition NextResponse_json (b : JsValue) (st : Z) : Response :=
  {| status := st; body := b |}.

(** [s || fallback] on a string. *)
Definition or_string (s : string) (fallback : string) : string :=
  if (s =? "")%string then fallback else s.

(** [o || fallback] on an optional string. *)
Definition or_default (o : option string) (fallback : string) : string :=
  match o with
  | Some s => or_string s fallback
  | None => fallback
  end.

Definition js_string (o : option string) : JsValue :=
  match o with
  | Some s => JsString s
  | None => JsUndefined
  end.

Definition js_number (o : option Z) : JsValue :=
  match o with
  | Some z => JsNumber z
  | None => JsUndefined
  end.

(** [const { certificateNumber, certificateData } = body] *)
Definition TypeError_destructure (what : string) : JsError :=
  {| message := "Cannot destructure property 'certificateNumber' of 'body' as it is "
                ++ what ++ "." |}.

Definition destructure_body (b : JsValue) : Outcome (JsValue * JsValue) :=
  match b with
  | JsUndefined => Throw (TypeError_destructure "undefined")
  | JsNull => Throw (TypeError_destructure "null")
  | JsObject props =>
      Ok (lookup "certificateNumber" props, lookup "certificateData" props)
  | _ => Ok (JsUndefined, JsUndefined)
  end.

Section Program.

Variable E : Ethers.

(** Computations of the program: they read and change the state of the
    world and may throw. *)
Definition M (A : Type) : Type := St E -> Outcome A * St E.

Definition ret {A} (a : A) : M A := fun s => (Ok a, s).

Definition throw {A} (e : JsError) : M A := fun s => (Throw e, s).

Definition bind {A B} (m : M A) (k : A -> M B) : M B :=
  fun s =>
    match m s with
    | (Ok a, s') => k a s'
    | (Throw e, s') => (Throw e, s')
    end.

(** A step that does not touch the world. *)
Definition lift {A} (o : Outcome A) : M A := fun s => (o, s).

(** A read-only call ([view] function, provider query). *)
Definition view {A} (f : St E -> Outcome A) : M A := fun s => (f s, s).

(** [try { m } catch (error) { handler error }] *)
Definition try_catch {A} (m : M A) (handler : JsError -> M A) : M A :=
  fun s =>
    match m s with
    | (Ok a, s') => (Ok a, s')
    | (Throw e, s') => handler e s'
    end.

Notation "x <- m ;; k" := (bind m (fun x => k))
  (at level 200, m at level 100, k at level 200, right associativity).

Definition getProvider : M (Provider E) :=
  lift (new_JsonRpcProvider E).

Definition getSigner : M (Wallet E) :=
  provider <- getProvider ;;
  lift (new_Wallet E provider).

Definition getCertificateContract (signer : option (Wallet E))
  : M (Contract E) :=
  signerOrProvider <-
    match signer with
    | Some w => ret (inl w)
    | None => (p <- getProvider ;; ret (inr p))
    end ;;
  lift (new_Contract E signerOrProvider).

Definition storeCertificateOnBlockchain
  (certificateNumber : JsValue) (certificateHash : string) : M StoreResult :=
  try_catch
    (signer <- getSigner ;;
     contract <- getCertificateContract (Some signer) ;;
     let hashBytes32 :=
       if String.prefix "0x" certificateHash then certificateHash
       else "0x" ++ certificateHash in
     tx <- contract_storeCertificate E contract certificateNumber hashBytes32 ;;
     receipt_hash <- tx_wait E tx ;;
     ret {| store_success := true;
            store_transactionHash := Some receipt_hash;
            store_error := None |})
    (fun error =>
       ret {| store_success := false;
              store_transactionHash := None;
              store_error :=
                Some (or_string (message error)
                        "Failed to store certificate on blockchain") |}).

Definition verifyCertificateOnBlockchain (certificateNumber : JsValue)
  : M VerifyResult :=
  try_catch
    (contract <- getCertificateContract None ;;
     reply <- view (contract_verifyCertificate E contract certificateNumber) ;;
     let '(hash, timestamp, issuer) := reply in
     let verified := negb (hash =? ZeroHash)%string in
     ret {| verify_success := true;
            verify_verified := verified;
            verify_blockchainHash := if verified then Some hash else None;
            verify_timestamp :=
              if verified then Some (Number_of_bigint timestamp) else None;
            verify_issuer := if verified then Some issuer else None;
            verify_error := None |})
    (fun error =>
       ret {| verify_success := false;
              verify_verified := false;
              verify_blockchainHash := None;
              verify_timestamp := None;
              verify_issuer := None;
              verify_error :=
                Some (or_string (message error)
                        "Failed to verify certificate on blockchain") |}).

Definition getCertificateHashFromBlockchain (certificateNumber : JsValue)
  : M HashResult :=
  try_catch
    (contract <- getCertificateContract None ;;
     hash <- view (contract_getCertificateHash E contract certificateNumber) ;;
     ret {| hash_success := true;
            hash_hash := if negb (hash =? ZeroHash)%string
                         then Some hash else None;
            hash_error := None |})
    (fun error =>
       ret {| hash_success := false;
              hash_hash := None;
              hash_error :=
                Some (or_string (message error)
                        "Failed to retrieve certificate hash from blockchain") |}).

Definition checkBlockchainConnection : M ConnectionStatus :=
  try_catch
    (provider <- getProvider ;;
     network_name <- view (provider_getNetwork E provider) ;;
     height <- view (provider_getBlockNumber E provider) ;;
     ret {| connected := true;
            network := Some network_name;
            blockNumber := Some height;
            connection_error := None |})
    (fun error =>
       ret {| connected := false;
              network := None;
              blockNumber := None;
              connection_error :=
                Some (or_string (message error)
                        "Failed to connect to blockchain") |}).

(** *** The route handlers

    [request_json] is the outcome of [await request.json()]: the parsed body,
    or the error thrown on a body that is not JSON. *)

Definition error_response (msg : string) (st : Z) : Response :=
  NextResponse_json
    (JsObject [("success", JsBool false); ("message", JsString msg)]) st.

Definition internal_error (error : JsError) : Response :=
  error_response (or_string (message error) "Internal server error") 500.

(** [POST /api/blockchain/store] *)
Definition POST_store (request_json : Outcome JsValue) : M Response :=
  try_catch
    (b <- lift request_json ;;
     fields <- lift (destructure_body b) ;;
     let '(certificateNumber, certificateData) := fields in
     if negb (truthy certificateNumber) || negb (truthy certificateData) then
       ret (error_response "Certificate number and data are required" 400)
     else
       certificateHash <- lift (generateCertificateHash certificateData) ;;
       result <- storeCertificateOnBlockchain certificateNumber
                   certificateHash ;;
       if negb (store_success result) then
         ret (error_response
                (or_default (store_error result)
                   "Failed to store on blockchain") 500)
       else
         ret (NextResponse_json
                (JsObject
                   [ ("success", JsBool true);
                     ("message",
                      JsString "Certificate stored on blockchain successfully");
                     ("data",
                      JsObject
                        [ ("certificateHash", JsString certificateHash);
                          ("transactionHash",
                           js_string (store_transactionHash result)) ]) ])
                200))
    (fun error => ret (internal_error error)).

(** [GET /api/blockchain/verify?certificateNumber=XXX];
    [query_certificateNumber] is [searchParams.get("certificateNumber")]. *)
Definition GET_verify (query_certificateNumber : option string) : M Response :=
  try_catch
    (match query_certificateNumber with
     | None | Some EmptyString =>
         ret (error_response "Certificate number is required" 400)
     | Some certificateNumber =>
         result <- verifyCertificateOnBlockchain (JsString certificateNumber) ;;
         if negb (verify_success result) then
           ret (error_response
                  (or_default (verify_error result)
                     "Failed to verify on blockchain") 500)
         else
           ret (NextResponse_json
                  (JsObject
                     [ ("success", JsBool true);
                       ("message",
                        JsString
                          (if verify_verified result
                           then "Certificate verified on blockchain"
                           else "Certificate not found on blockchain"));
                       ("data",
                        JsObject
                          [ ("verified", JsBool (verify_verified result));
                            ("blockchainHash",
                             js_string (verify_blockchainHash result));
                            ("timestamp", js_number (verify_timestamp result));
                            ("issuer", js_string (verify_issuer result)) ]) ])
                  200)
     end)
    (fun error => ret (internal_error error)).

(** [POST /api/blockchain/verify] *)
Definition POST_verify (request_json : Outcome JsValue) : M Response :=
  try_catch
    (b <- lift request_json ;;
     fields <- lift (destructure_body b) ;;
     let '(certificateNumber, certificateData) := fields in
     if negb (truthy certificateNumber) || negb (truthy certificateData) then
       ret (error_response "Certificate number and data are required" 400)
     else
       localHash <- lift (generateCertificateHash certificateData) ;;
       blockchainResult <- verifyCertificateOnBlockchain certificateNumber ;;
       if negb (verify_success blockchainResult) then
         ret (error_response
                (or_default (verify_error blockchainResult)
                   "Failed to verify on blockchain") 500)
       else if negb (verify_verified blockchainResult) then
         ret (NextResponse_json
                (JsObject
                   [ ("success", JsBool true);
                     ("message", JsString "Certificate not found on blockchain");
                     ("data",
                      JsObject
                        [ ("verified", JsBool false);
                          ("hashMatch", JsBool false) ]) ])
                200)
       else
         let hashMatch :=
           match verify_blockchainHash blockchainResult with
           | Some blockchainHash => (localHash =? blockchainHash)%string
           | None => false
           end in
         ret (NextResponse_json
                (JsObject
                   [ ("success", JsBool true);
                     ("message",
                      JsString
                        (if hashMatch
                         then "Certificate verified and hash matches"
                         else "Certificate found but hash mismatch"));
                     ("data",
                      JsObject
                        [ ("verified",
                           JsBool (verify_verified blockchainResult));
                          ("hashMatch", JsBool hashMatch);
                          ("localHash", JsString localHash);
                          ("blockchainHash",
                           js_string (verify_blockchainHash blockchainResult));
                          ("timestamp",
                           js_number (verify_timestamp blockchainResult));
                          ("issuer",
                           js_string (verify_issuer blockchainResult)) ]) ])
                200))
    (fun error => ret (internal_error error)).

(** [GET /api/blockchain/status] *)
Definition GET_status : M Response :=
  try_catch
    (st <- checkBlockchainConnection ;;
     ret (NextResponse_json
            (JsObject
               [ ("success", JsBool (connected st));
                 ("message",
                  JsString (if connected st then "Blockchain connected"
                            else "Blockchain connection failed"));
                 ("data",
                  JsObject
                    [ ("connected", JsBool (connected st));
                      ("network", js_string (network st));
                      ("blockNumber", js_number (blockNumber st));
                      ("error", js_string (connection_error st)) ]) ])
            200))
    (fun error => ret (internal_error error)).

End Program.

Arguments ret {E A} a _.
Arguments throw {E A} e _.
Arguments bind {E A B} m k _.
Arguments lift {E A} o _.
Arguments view {E A} f _.
Arguments try_catch {E A} m handler _.

(* ================================================================= *)
(** ** Reading requests and responses *)

(** The body [{ certificateNumber, certificateData }] of a store or verify
    request. *)
Definition request_body (certificateNumber certificateData : JsValue)
  : JsValue :=
  JsObject [ ("certificateNumber", certificateNumber);
             ("certificateData", certificateData) ].

(** A request passes the check of the routes when both members of its body
    are truthy. *)
Definition well_formed_request (b K D : JsValue) : Prop :=
  destructure_body b = Ok (K, D) /\ truthy K = true /\ truthy D = true.

(** The properties a value offers to a property read. *)
Definition properties_of (v : JsValue) : list (string * JsValue) :=
  match v with
  | JsObject props => props
  | _ => []
  end.

(** The five fields of a certificate record. *)
Definition record_fields : list string :=
  [ "certificateNumber"; "recipientName"; "certificateType"; "issueDate";
    "issuingEntityId" ].

(** A certificate record as the documentation writes it. *)
Definition certificate_record
  (certificateNumber recipientName certificateType issueDate : string)
  (issuingEntityId : Z) : JsValue :=
  JsObject [ ("certificateNumber", JsString certificateNumber);
             ("recipientName", JsString recipientName);
             ("certificateType", JsString certificateType);
             ("issueDate", JsString issueDate);
             ("issuingEntityId", JsNumber issuingEntityId) ].

(** The [data] member of a response body. *)
Definition response_data (r : Response) : JsValue :=
  match body r with
  | JsObject props => lookup "data" props
  | _ => JsUndefined
  end.

Definition response_field (r : Response) (name : string) : JsValue :=
  match body r with
  | JsObject props => lookup name props
  | _ => JsUndefined
  end.

Definition data_field (r : Response) (name : string) : JsValue :=
  match response_data r with
  | JsObject props => lookup name props
  | _ => JsUndefined
  end.

(** The responses of the verify route on a well-formed request. *)
Definition not_found_response : Response :=
  NextResponse_json
    (JsObject
       [ ("success", JsBool true);
         ("message", JsString "Certificate not found on blockchain");
         ("data",
          JsObject [ ("verified", JsBool false); ("hashMatch", JsBool false) ]) ])
    200.

Definition compared_response
  (localHash blockchainHash : string) (timestamp : Z) (issuer : string)
  : Response :=
  let hashMatch := (localHash =? blockchainHash)%string in
  NextResponse_json
    (JsObject
       [ ("success", JsBool true);
         ("message",
          JsString (if hashMatch then "Certificate verified and hash matches"
                    else "Certificate found but hash mismatch"));
         ("data",
          JsObject
            [ ("verified", JsBool true);
              ("hashMatch", JsBool hashMatch);
              ("localHash", JsString localHash);
              ("blockchainHash", JsString blockchainHash);
              ("timestamp", JsNumber timestamp);
              ("issuer", JsString issuer) ]) ])
    200.

(** The responses of the existence check. *)
Definition absent_response : Response :=
  NextResponse_json
    (JsObject
       [ ("success", JsBool true);
         ("message", JsString "Certificate not found on blockchain");
         ("data",
          JsObject
            [ ("verified", JsBool false);
              ("blockchainHash", JsUndefined);
              ("timestamp", JsUndefined);
              ("issuer", JsUndefined) ]) ])
    200.

Definition present_response
  (blockchainHash : string) (timestamp : Z) (issuer : string) : Response :=
  NextResponse_json
    (JsObject
       [ ("success", JsBool true);
         ("message", JsString "Certificate verified on blockchain");
         ("data",
          JsObject
            [ ("verified", JsBool true);
              ("blockchainHash", JsString blockchainHash);
              ("timestamp", JsNumber timestamp);
              ("issuer", JsString issuer) ]) ])
    200.

(** The response of the store route after a confirmed write. *)
Definition stored_response (certificateHash transactionHash : string)
  : Response :=
  NextResponse_json
    (JsObject
       [ ("success", JsBool true);
         ("message", JsString "Certificate stored on blockchain successfully");
         ("data",
          JsObject
            [ ("certificateHash", JsString certificateHash);
              ("transactionHash", JsString transactionHash) ]) ])
    200.

(** The hash as [storeCertificateOnBlockchain] hands it to the contract. *)
Definition normalize_hash (certificateHash : string) : string :=
  if String.prefix "0x" certificateHash then certificateHash
  else "0x" ++ certificateHash.

(** The three verdicts of a match verification. *)
Inductive Verdict : Type :=
| NotAnchored
| AnchoredAndMatches
| AnchoredButMismatch.

Definition verdict_of (r : Response) : option Verdict :=
  match data_field r "verified", data_field r "hashMatch" with
  | JsBool false, JsBool false => Some NotAnchored
  | JsBool true, JsBool true => Some AnchoredAndMatches
  | JsBool true, JsBool false => Some AnchoredButMismatch
  | _, _ => None
  end.

(** A fingerprint at the boundary: [0x] and 64 lowercase hex digits. *)
Definition is_lower_hex_digit (c : ascii) : bool :=
  let n := Z.of_N (N_of_ascii c) in
  ((48 <=? n)%Z && (n <=? 57)%Z) || ((97 <=? n)%Z && (n <=? 102)%Z).

Fixpoint all_chars (p : ascii -> bool) (s : string) : bool :=
  match s with
  | EmptyString => true
  | String c rest => p c && all_chars p rest
  end.

Definition is_bytes32_hex (h : string) : bool :=
  match h with
  | String a (String b digits) =>
      Ascii.eqb a "0" && Ascii.eqb b "x"
      && (String.length digits =? 64)%nat
      && all_chars is_lower_hex_digit digits
  | _ => false
  end.

(** [ethers.getBytes] on a hex string: digits of either case are accepted. *)
Definition hex_value (c : ascii) : option Z :=
  let n := Z.of_N (N_of_ascii c) in
  if (48 <=? n)%Z && (n <=? 57)%Z then Some (n - 48)
  else if (97 <=? n)%Z && (n <=? 102)%Z then Some (n - 87)
  else if (65 <=? n)%Z && (n <=? 70)%Z then Some (n - 55)
  else None.

Fixpoint bytes_of_hex (digits : string) : option (list Z) :=
  match digits with
  | EmptyString => Some []
  | String a (String b rest) =>
      match hex_value a, hex_value b, bytes_of_hex rest with
      | Some hi, Some lo, Some bs => Some (16 * hi + lo :: bs)
      | _, _, _ => None
      end
  | String _ EmptyString => None
  end.

Definition getBytes (h : string) : option (list Z) :=
  match h with
  | String a (String b digits) =>
      if Ascii.eqb a "0" && Ascii.eqb b "x" then bytes_of_hex digits
      else None
  | _ => None
  end.


(** A digest read as a number, least significant byte first. *)
Definition digest_value (bs : list Z) : Z :=
  fold_right (fun b acc => b + 256 * acc) 0 bs.

Definition is_byte (b : Z) : Prop := 0 <= b < 256.

(** One character of a quoted string read back: the inverse of
    [quote_char], used to tell serialisations apart. *)
Definition unquote_char (s : string) : option (ascii * string) :=
  match s with
  | EmptyString => None
  | String c rest =>
      if Ascii.eqb c dquote then None
      else if Ascii.eqb c backslash then
        match rest with
        | EmptyString => None
        | String e rest' =>
            if Ascii.eqb e "b" then Some ("008"%char, rest')
            else if Ascii.eqb e "t" then Some ("009"%char, rest')
            else if Ascii.eqb e "n" then Some ("010"%char, rest')
            else if Ascii.eqb e "f" then Some ("012"%char, rest')
            else if Ascii.eqb e "r" then Some ("013"%char, rest')
            else if Ascii.eqb e dquote then Some (dquote, rest')
            else if Ascii.eqb e backslash then Some (backslash, rest')
            else
              match rest' with
              | String _ (String _ (String h (String l rest''))) =>
                  match hex_value h, hex_value l with
                  | Some hi, Some lo =>
                      Some (ascii_of_N (Z.to_N (16 * hi + lo)), rest'')
                  | _, _ => None
                  end
              | _ => None
              end
        end
      else Some (c, rest)
  end.

(** The text [generateCertificateHash] hashes for a record of four strings
    and an integer. *)
Definition canonical_json
  (certificateNumber recipientName certificateType issueDate : string)
  (issuingEntityId : Z) : string :=
  JSON_stringify_object
    [ ("certificateNumber", JsString certificateNumber);
      ("recipientName", JsString recipientName);
      ("certificateType", JsString certificateType);
      ("issueDate", JsString issueDate);
      ("issuingEntityId", JsNumber issuingEntityId) ].

(** A family of records that differ in the recipient name only. *)
Definition numbered_record (n : Z) : JsValue :=
  certificate_record "CERT-2025-ABC123" (Number_toString n) "Achievement"
    "2025-01-15" 1.

(** The digest of the [n]-th record of the family, as a number. *)
Definition numbered_digest (n : Z) : Z :=
  digest_value
    (Keccak.keccak256_bytes
       (toUtf8Bytes
          (canonical_json "CERT-2025-ABC123" (Number_toString n) "Achievement"
             "2025-01-15" 1))).

(* ================================================================= *)
(** ** The two ledger operations of the library, and what anchoring means *)

Section LedgerOperations.

Variable E : Ethers.

Notation "x <- m ;; k" := (bind m (fun x => k))
  (at level 200, m at level 100, k at level 200, right associativity).

(** The ledger write inside [storeCertificateOnBlockchain]. *)
Definition ledger_submit (certificateNumber : JsValue) (hashBytes32 : string)
  : M E string :=
  signer <- getSigner E ;;
  contract <- getCertificateContract E (Some signer) ;;
  tx <- contract_storeCertificate E contract certificateNumber hashBytes32 ;;
  tx_wait E tx.

(** The ledger read inside [verifyCertificateOnBlockchain]. *)
Definition ledger_query (certificateNumber : JsValue)
  : M E (string * Z * string) :=
  contract <- getCertificateContract E None ;;
  view (contract_verifyCertificate E contract certificateNumber).

(** The health probe inside [checkBlockchainConnection]. *)
Definition ledger_probe : M E (string * Z) :=
  provider <- getProvider E ;;
  network_name <- view (provider_getNetwork E provider) ;;
  height <- view (provider_getBlockNumber E provider) ;;
  ret (network_name, height).

(** What the registry contract is for: a confirmed write of a 32-byte hash
    under a key is what a later read of that key returns. *)
Definition store_then_query : Prop :=
  forall k h s tx s',
    is_bytes32_hex h = true ->
    ledger_submit k h s = (Ok tx, s') ->
    exists timestamp issuer,
      ledger_query k s' = (Ok (h, timestamp, issuer), s').

End LedgerOperations.

(* ================================================================= *)
(** ** Ledger clients to run the program against *)

(** Modelled from the spec: [contracts/CertificateRegistry.sol] and the node
    behind it, which are not among the sources.  An in-memory ledger: a write
    records the hash with a timestamp and the issuer, a read of an unknown
    key returns the all-zero hash.  A second write under a key is refused,
    one of the policies the specification leaves open. *)
Module MemoryLedger.

Record State : Type := {
  entries : list (string * (string * Z * string));
  height : Z
}.

Definition empty : State := {| entries := []; height := 0 |}.

Definition issuer_address : string :=
  "0xf39Fd6e51aad88F6F4ce6aB8827279cffFb92266".

Definition zero_address : string :=
  "0x0000000000000000000000000000000000000000".

Fixpoint find (k : string) (l : list (string * (string * Z * string)))
  : option (string * Z * string) :=
  match l with
  | [] => None
  | (k', v) :: rest => if (k' =? k)%string then Some v else find k rest
  end.

Definition storeCertificate (signer : bool) (key : JsValue) (h : string)
  (s : State) : Outcome string * State :=
  if negb signer then
    (Throw {| message := "contract runner does not support sending transactions" |}, s)
  else
    match key with
    | JsString k =>
        if negb (is_bytes32_hex h) then
          (Throw {| message := "invalid BytesLike value" |}, s)
        else
          match find k (entries s) with
          | Some _ =>
              (Throw {| message := "execution reverted: Certificate already exists" |}, s)
          | None =>
              (Ok (keccak256 (toUtf8Bytes (k ++ h))),
               {| entries := (k, (h, 1700000000 + height s, issuer_address))
                               :: entries s;
                  height := height s + 1 |})
          end
    | _ => (Throw {| message := "invalid string value" |}, s)
    end.

Definition verifyCertificate (key : JsValue) (s : State)
  : Outcome (string * Z * string) :=
  match key with
  | JsString k =>
      match find k (entries s) with
      | Some v => Ok v
      | None => Ok (ZeroHash, 0, zero_address)
      end
  | _ => Throw {| message := "invalid string value" |}
  end.

Definition client : Ethers :=
  {| St := State;
     Provider := unit;
     Wallet := unit;
     Contract := bool;
     TransactionResponse := string;
     new_JsonRpcProvider := Ok tt;
     new_Wallet := fun _ => Ok tt;
     new_Contract := fun sp => Ok (match sp with inl _ => true | inr _ => false end);
     contract_storeCertificate := storeCertificate;
     tx_wait := fun tx s => (Ok tx, s);
     contract_verifyCertificate := fun _ => verifyCertificate;
     contract_getCertificateHash :=
       fun _ key s =>
         match verifyCertificate key s with
         | Ok (h, _, _) => Ok h
         | Throw e => Throw e
         end;
     provider_getNetwork := fun _ _ => Ok "sepolia";
     provider_getBlockNumber := fun _ s => Ok (height s) |}.

End MemoryLedger.

(** A client with fixed replies, for single calls. *)
Definition fixed_client
  (submit : Outcome string) (query : Outcome (string * Z * string))
  (network_reply : Outcome string) (height_reply : Outcome Z) : Ethers :=
  {| St := unit;
     Provider := unit;
     Wallet := unit;
     Contract := unit;
     TransactionResponse := string;
     new_JsonRpcProvider := Ok tt;
     new_Wallet := fun _ => Ok tt;
     new_Contract := fun _ => Ok tt;
     contract_storeCertificate := fun _ _ _ s => (submit, s);
     tx_wait := fun tx s => (Ok tx, s);
     contract_verifyCertificate := fun _ _ _ => query;
     contract_getCertificateHash :=
       fun _ _ _ => match query with
                    | Ok (h, _, _) => Ok h
                    | Throw e => Throw e
                    end;
     provider_getNetwork := fun _ _ => network_reply;
     provider_getBlockNumber := fun _ _ => height_reply |}.

(** The record of the documentation's example. *)
Definition example_props : list (string * JsValue) :=
  [ ("certificateNumber", JsString "CERT-2025-ABC123");
    ("recipientName", JsString "John Doe");
    ("certificateType", JsString "Achievement");
    ("issueDate", JsString "2025-01-15");
    ("issuingEntityId", JsNumber 1) ].

Definition example_record : JsValue :=
  certificate_record "CERT-2025-ABC123" "John Doe" "Achievement"
    "2025-01-15" 1.

Definition example_key : JsValue := JsString "CERT-2025-ABC123".

Definition example_request : JsValue :=
  request_body example_key example_record.

(** The same record with another recipient. *)
Definition tampered_record : JsValue :=
  certificate_record "CERT-2025-ABC123" "Jane Doe" "Achievement"
    "2025-01-15" 1.

Definition tampered_request : JsValue :=
  request_body example_key tampered_record.

Definition example_fingerprint : string :=
  "0x032a75a8cd0e9bea7aecc780dd71348829b01f97e78d3d47a9683edfe581276e".

Definition tampered_fingerprint : string :=
  Eval vm_compute in
    match generateCertificateHash tampered_record with
    | Ok h => h
    | Throw _ => ""
    end.

(** The store request of the example, run on the empty in-memory ledger. *)
Definition example_store_response : Response :=
  Eval vm_compute in
    match fst (POST_store MemoryLedger.client (Ok example_request)
                 MemoryLedger.empty) with
    | Ok r => r
    | Throw e => internal_error e
    end.

Definition example_anchored_state : MemoryLedger.State :=
  Eval vm_compute in
    snd (POST_store MemoryLedger.client (Ok example_request)
           MemoryLedger.empty).


(* ================================================================= *)
(** ** The remaining ledger read, the deployment script, failing clients *)

Section HashRead.

Variable E : Ethers.

Notation "x <- m ;; k" := (bind m (fun x => k))
  (at level 200, m at level 100, k at level 200, right associativity).

(** The ledger read inside [getCertificateHashFromBlockchain]. *)
Definition ledger_hash_query (certificateNumber : JsValue) : M E string :=
  contract <- getCertificateContract E None ;;
  view (contract_getCertificateHash E contract certificateNumber).

End HashRead.

(** The contract's two reads agree with its write: a confirmed write of a
    32-byte hash under a key is what [getCertificateHash] returns for that
    key afterwards. *)
Definition store_then_hash_query (E : Ethers) : Prop :=
  forall k h s tx s',
    is_bytes32_hex h = true ->
    ledger_submit E k h s = (Ok tx, s') ->
    ledger_hash_query E k s' = (Ok h, s').

(** How [scripts/deploy-contract.ts] ends: [process.exit(code)], or the end
    of [deployContract]. *)
Inductive Termination : Type :=
| Exited (code : Z)
| Returned.

Section Deploy.

Variable E : Ethers.

(** [await provider.getBalance(wallet.address)], in wei. *)
Variable provider_getBalance : Provider E -> Wallet E -> St E -> Outcome Z.

Notation "x <- m ;; k" := (bind m (fun x => k))
  (at level 200, m at level 100, k at level 200, right associativity).

(** [deployContract]; [BLOCKCHAIN_PRIVATE_KEY] is the environment variable,
    [None] when it is not set.  The script builds its provider and wallet
    itself, from the same settings as the library.  What it prints is not
    modelled. *)
Definition deployContract (BLOCKCHAIN_PRIVATE_KEY : option string)
  : M E Termination :=
  if negb (truthy (js_string BLOCKCHAIN_PRIVATE_KEY)) then ret (Exited 1)
  else
    try_catch
      (provider <- lift (new_JsonRpcProvider E) ;;
       wallet <- lift (new_Wallet E provider) ;;
       balance <- view (provider_getBalance provider wallet) ;;
       if (balance =? 0)%Z then ret (Exited 1)
       else ret Returned)
      (fun error => ret (Exited 1)).

End Deploy.

(** A client whose provider or wallet may fail to be built; its ledger is
    empty and accepts every write. *)
Definition faulty_client (provider_reply wallet_reply : Outcome unit)
  : Ethers :=
  {| St := nat;
     Provider := unit;
     Wallet := unit;
     Contract := unit;
     TransactionResponse := string;
     new_JsonRpcProvider := provider_reply;
     new_Wallet := fun _ => wallet_reply;
     new_Contract := fun _ => Ok tt;
     contract_storeCertificate := fun _ _ h s => (Ok h, S s);
     tx_wait := fun tx s => (Ok tx, s);
     contract_verifyCertificate :=
       fun _ _ _ => Ok (ZeroHash, 0, MemoryLedger.zero_address);
     contract_getCertificateHash := fun _ _ _ => Ok ZeroHash;
     provider_getNetwork := fun _ _ => Ok "sepolia";
     provider_getBlockNumber := fun _ s => Ok (Z.of_nat s) |}.

(* ================================================================= *)
(** * Properties *)

(** ** The digest and its encoding *)

Lemma land_255_is_byte (a : Z) : is_byte (Z.land a 255).
Proof.
  unfold is_byte.
  change 255 with (Z.ones 8).
  rewrite Z.land_ones by lia.
  apply Z.mod_pos_bound. reflexivity.
Qed.

Lemma bytes_of_lane_bytes (l : Z) : Forall is_byte (Keccak.bytes_of_lane l).
Proof.
  unfold Keccak.bytes_of_lane.
  apply Forall_forall. intros b Hb.
  apply in_map_iff in Hb. destruct Hb as [k [<- _]].
  apply land_255_is_byte.
Qed.

Lemma keccak256_bytes_length (msg : list Z) :
  List.length (Keccak.keccak256_bytes msg) = 32%nat.
Proof.
  unfold Keccak.keccak256_bytes.
  generalize (Keccak.absorb (List.length (Keccak.pad msg) / Keccak.rate)
                Keccak.initial_state (Keccak.pad msg)).
  intros st. reflexivity.
Qed.

Lemma keccak256_bytes_range (msg : list Z) :
  Forall is_byte (Keccak.keccak256_bytes msg).
Proof.
  unfold Keccak.keccak256_bytes.
  generalize (Keccak.absorb (List.length (Keccak.pad msg) / Keccak.rate)
                Keccak.initial_state (Keccak.pad msg)).
  intros st.
  apply Forall_flat_map, Forall_forall.
  intros i _. apply bytes_of_lane_bytes.
Qed.

Lemma hex_char_lower (d : Z) :
  0 <= d < 16 -> is_lower_hex_digit (hex_char d) = true.
Proof.
  intros H.
  assert (Hd : In d [0;1;2;3;4;5;6;7;8;9;10;11;12;13;14;15]).
  { simpl. lia. }
  simpl in Hd.
  repeat (destruct Hd as [<- | Hd]; [reflexivity |]).
  contradiction.
Qed.

Lemma high_nibble_range (v : Z) : 0 <= Z.shiftr (Z.land v 0xf0) 4 < 16.
Proof.
  rewrite Z.shiftr_land.
  change (Z.shiftr 0xf0 4) with (Z.ones 4).
  rewrite Z.land_ones by lia.
  apply Z.mod_pos_bound. reflexivity.
Qed.

Lemma low_nibble_range (v : Z) : 0 <= Z.land v 0x0f < 16.
Proof.
  change 0x0f with (Z.ones 4).
  rewrite Z.land_ones by lia.
  apply Z.mod_pos_bound. reflexivity.
Qed.

Lemma hex_of_bytes_length (bs : list Z) :
  String.length (hex_of_bytes bs) = (2 * List.length bs)%nat.
Proof.
  induction bs as [| b bs IH]; simpl; [reflexivity |].
  rewrite IH. lia.
Qed.

Lemma hex_of_bytes_lower (bs : list Z) :
  all_chars is_lower_hex_digit (hex_of_bytes bs) = true.
Proof.
  induction bs as [| b bs IH]; [reflexivity |].
  cbn [hex_of_bytes fold_right all_chars].
  rewrite (hex_char_lower _ (high_nibble_range b)).
  rewrite (hex_char_lower _ (low_nibble_range b)).
  exact IH.
Qed.

Lemma keccak256_is_bytes32_hex (data : list Z) :
  is_bytes32_hex (keccak256 data) = true.
Proof.
  unfold keccak256, hexlify. cbn [append is_bytes32_hex].
  rewrite hex_of_bytes_length, keccak256_bytes_length, hex_of_bytes_lower.
  reflexivity.
Qed.

Lemma is_bytes32_hex_shape (h : string) :
  is_bytes32_hex h = true ->
  exists digits,
    h = "0x" ++ digits /\ String.length digits = 64%nat
    /\ all_chars is_lower_hex_digit digits = true.
Proof.
  destruct h as [| a [| b digits]]; try discriminate.
  cbn [is_bytes32_hex]. intros H.
  repeat (apply andb_true_iff in H; destruct H as [H ?]).
  apply Ascii.eqb_eq in H. subst a.
  match goal with Hb : Ascii.eqb b _ = true |- _ =>
    apply Ascii.eqb_eq in Hb; subst b end.
  exists digits. repeat split; [ now apply Nat.eqb_eq | assumption ].
Qed.

(** ** [generateCertificateHash] on records *)

Lemma generateCertificateHash_object (props : list (string * JsValue)) :
  generateCertificateHash (JsObject props)
  = Ok (keccak256 (toUtf8Bytes
          (JSON_stringify_object
             (map (fun name => (name, lookup name props)) record_fields)))).
Proof. reflexivity. Qed.

Lemma generateCertificateHash_ext (p1 p2 : list (string * JsValue)) :
  (forall name, In name record_fields -> lookup name p1 = lookup name p2) ->
  generateCertificateHash (JsObject p1) = generateCertificateHash (JsObject p2).
Proof.
  intros H.
  rewrite !generateCertificateHash_object.
  do 4 f_equal.
  apply map_ext_in. intros name Hin. now rewrite H.
Qed.

Lemma lookup_not_in (name : string) (l : list (string * JsValue)) :
  ~ In name (map fst l) -> lookup name l = JsUndefined.
Proof.
  induction l as [| [k v] l IH]; simpl; [reflexivity |].
  intros H. destruct (String.eqb_spec k name) as [-> | _].
  - exfalso. apply H. now left.
  - apply IH. intros Hin. apply H. now right.
Qed.

Lemma lookup_permutation (name : string) (l l' : list (string * JsValue)) :
  NoDup (map fst l) -> Permutation l l' -> lookup name l = lookup name l'.
Proof.
  intros Hnd Hp. induction Hp as [| [k v] l l' Hp IH | [k1 v1] [k2 v2] l | l l' l'' Hp1 IH1 Hp2 IH2].
  - reflexivity.
  - simpl. inversion Hnd; subst. now rewrite IH.
  - simpl. simpl in Hnd. inversion Hnd as [| ? ? Hn1 Hnd']; subst.
    destruct (String.eqb_spec k1 name) as [-> | ?];
      destruct (String.eqb_spec k2 name) as [-> | ?]; try reflexivity.
    exfalso. apply Hn1. now left.
  - rewrite IH1 by assumption. apply IH2.
    eapply Permutation_NoDup; [ apply Permutation_map; exact Hp1 | exact Hnd ].
Qed.

Lemma generateCertificateHash_truthy (certificateData : JsValue) :
  truthy certificateData = true ->
  exists localHash,
    generateCertificateHash certificateData = Ok localHash
    /\ is_bytes32_hex localHash = true.
Proof.
  intros Ht.
  destruct certificateData; try discriminate;
    (eexists; split; [ reflexivity | apply keccak256_is_bytes32_hex ]).
Qed.

Lemma or_string_nonempty (s fallback : string) :
  fallback <> "" -> or_string s fallback <> "".
Proof.
  unfold or_string. destruct (String.eqb_spec s ""); congruence.
Qed.

Lemma or_default_or_string (s d1 d2 : string) :
  d1 <> "" -> or_default (Some (or_string s d1)) d2 = or_string s d1.
Proof.
  intros Hd. unfold or_default.
  pose proof (or_string_nonempty s d1 Hd) as Hne.
  unfold or_string at 1.
  destruct (String.eqb_spec (or_string s d1) ""); congruence.
Qed.

(** ** What the library functions do with the outcomes of the ledger *)

Section Execution.

Variable E : Ethers.

Ltac unfold_program :=
  cbv beta iota delta
    [ POST_store POST_verify GET_verify GET_status
      storeCertificateOnBlockchain verifyCertificateOnBlockchain
      checkBlockchainConnection getCertificateHashFromBlockchain
      ledger_submit ledger_query ledger_probe
      getSigner getProvider getCertificateContract
      bind ret lift view try_catch throw ].

Ltac step_outcomes :=
  repeat match goal with
         | |- context [match ?o with Ok _ => _ | Throw _ => _ end] =>
             destruct o eqn:?
         | |- context [let (_, _) := ?p in _] => destruct p eqn:?
         | |- context [match ?p with (_, _) => _ end] => destruct p eqn:?
         end.

(** Reading the ledger leaves the world as it is. *)
Lemma ledger_query_state (k : JsValue) (s : St E) :
  snd (ledger_query E k s) = s.
Proof. unfold_program. step_outcomes; reflexivity. Qed.

Lemma ledger_probe_state (s : St E) : snd (ledger_probe E s) = s.
Proof. unfold_program. step_outcomes; reflexivity. Qed.

(** [verifyCertificateOnBlockchain] returns a result whatever the ledger
    does, and does not change the world. *)
Lemma verifyCertificateOnBlockchain_run (k : JsValue) (s : St E) :
  verifyCertificateOnBlockchain E k s =
  (Ok match fst (ledger_query E k s) with
      | Ok (hash, timestamp, issuer) =>
          let verified := negb (hash =? ZeroHash)%string in
          {| verify_success := true;
             verify_verified := verified;
             verify_blockchainHash := if verified then Some hash else None;
             verify_timestamp :=
               if verified then Some (Number_of_bigint timestamp) else None;
             verify_issuer := if verified then Some issuer else None;
             verify_error := None |}
      | Throw error =>
          {| verify_success := false;
             verify_verified := false;
             verify_blockchainHash := None;
             verify_timestamp := None;
             verify_issuer := None;
             verify_error :=
               Some (or_string (message error)
                       "Failed to verify certificate on blockchain") |}
      end, s).
Proof.
  unfold_program.
  destruct (new_JsonRpcProvider E) as [p | e]; [| reflexivity].
  destruct (new_Contract E (inr p)) as [c | e]; [| reflexivity].
  destruct (contract_verifyCertificate E c k s) as [[[h ts] iss] | e];
    reflexivity.
Qed.

Lemma storeCertificateOnBlockchain_run
  (k : JsValue) (certificateHash : string) (s : St E) :
  storeCertificateOnBlockchain E k certificateHash s =
  (Ok match fst (ledger_submit E k (normalize_hash certificateHash) s) with
      | Ok receipt_hash =>
          {| store_success := true;
             store_transactionHash := Some receipt_hash;
             store_error := None |}
      | Throw error =>
          {| store_success := false;
             store_transactionHash := None;
             store_error :=
               Some (or_string (message error)
                       "Failed to store certificate on blockchain") |}
      end,
   snd (ledger_submit E k (normalize_hash certificateHash) s)).
Proof.
  unfold_program. unfold normalize_hash.
  destruct (new_JsonRpcProvider E) as [p | e]; [| reflexivity].
  destruct (new_Wallet E p) as [w | e]; [| reflexivity].
  destruct (new_Contract E (inl w)) as [c | e]; [| reflexivity].
  destruct (contract_storeCertificate E c k _ s) as [[tx | e] s1];
    [| reflexivity].
  destruct (tx_wait E tx s1) as [[rh | e] s2]; reflexivity.
Qed.

Lemma checkBlockchainConnection_run (s : St E) :
  checkBlockchainConnection E s =
  (Ok match fst (ledger_probe E s) with
      | Ok (network_name, height) =>
          {| connected := true;
             network := Some network_name;
             blockNumber := Some height;
             connection_error := None |}
      | Throw error =>
          {| connected := false;
             network := None;
             blockNumber := None;
             connection_error :=
               Some (or_string (message error)
                       "Failed to connect to blockchain") |}
      end, s).
Proof.
  unfold_program.
  destruct (new_JsonRpcProvider E) as [p | e]; [| reflexivity].
  destruct (provider_getNetwork E p s) as [n | e]; [| reflexivity].
  destruct (provider_getBlockNumber E p s) as [h | e]; reflexivity.
Qed.

Lemma POST_verify_run (b K D : JsValue) (localHash : string) (s : St E) :
  well_formed_request b K D ->
  generateCertificateHash D = Ok localHash ->
  POST_verify E (Ok b) s =
  (Ok match fst (ledger_query E K s) with
      | Throw error =>
          error_response
            (or_string (message error)
               "Failed to verify certificate on blockchain") 500
      | Ok (hash, timestamp, issuer) =>
          if (hash =? ZeroHash)%string then not_found_response
          else compared_response localHash hash (Number_of_bigint timestamp)
                 issuer
      end, s).
Proof.
  intros (Hb & HK & HD) Hh.
  cbv beta iota delta [POST_verify bind ret lift try_catch].
  rewrite Hb, HK, HD, Hh. cbn [negb orb].
  rewrite verifyCertificateOnBlockchain_run.
  destruct (fst (ledger_query E K s)) as [[[h ts] iss] | e].
  - cbn [verify_success verify_verified negb].
    destruct (h =? ZeroHash)%string; reflexivity.
  - cbn [verify_success verify_error negb].
    rewrite or_default_or_string by discriminate. reflexivity.
Qed.

Lemma GET_verify_run (k : string) (s : St E) :
  k <> "" ->
  GET_verify E (Some k) s =
  (Ok match fst (ledger_query E (JsString k) s) with
      | Throw error =>
          error_response
            (or_string (message error)
               "Failed to verify certificate on blockchain") 500
      | Ok (hash, timestamp, issuer) =>
          if (hash =? ZeroHash)%string then absent_response
          else present_response hash (Number_of_bigint timestamp) issuer
      end, s).
Proof.
  intros Hk. destruct k as [| c k]; [congruence |].
  cbv beta iota delta [GET_verify bind ret lift try_catch].
  rewrite verifyCertificateOnBlockchain_run.
  destruct (fst (ledger_query E (JsString (String c k)) s))
    as [[[h ts] iss] | e].
  - cbn [verify_success verify_verified negb].
    destruct (h =? ZeroHash)%string; reflexivity.
  - cbn [verify_success verify_error negb].
    rewrite or_default_or_string by discriminate. reflexivity.
Qed.

Lemma normalize_hash_bytes32 (h : string) :
  is_bytes32_hex h = true -> normalize_hash h = h.
Proof.
  intros H. apply is_bytes32_hex_shape in H. destruct H as (d & -> & _).
  unfold normalize_hash. cbn. now destruct d.
Qed.

Lemma POST_store_run (b K D : JsValue) (certificateHash : string) (s : St E) :
  well_formed_request b K D ->
  generateCertificateHash D = Ok certificateHash ->
  is_bytes32_hex certificateHash = true ->
  POST_store E (Ok b) s =
  (Ok match fst (ledger_submit E K certificateHash s) with
      | Ok receipt_hash => stored_response certificateHash receipt_hash
      | Throw error =>
          error_response
            (or_string (message error)
               "Failed to store certificate on blockchain") 500
      end,
   snd (ledger_submit E K certificateHash s)).
Proof.
  intros (Hb & HK & HD) Hh H32.
  cbv beta iota delta [POST_store bind ret lift try_catch].
  rewrite Hb, HK, HD, Hh. cbn [negb orb].
  rewrite storeCertificateOnBlockchain_run.
  rewrite (normalize_hash_bytes32 _ H32).
  destruct (fst (ledger_submit E K certificateHash s)) as [rh | e].
  - reflexivity.
  - cbn [store_success store_error negb].
    rewrite or_default_or_string by discriminate. reflexivity.
Qed.

End Execution.

(** ** The in-memory ledger does what a registry is for *)

Lemma MemoryLedger_find_head k v l :
  MemoryLedger.find k ((k, v) :: l) = Some v.
Proof. simpl. now rewrite String.eqb_refl. Qed.

Lemma MemoryLedger_submit_inv k h s tx s' :
  ledger_submit MemoryLedger.client k h s = (Ok tx, s') ->
  exists k0,
    k = JsString k0 /\ is_bytes32_hex h = true
    /\ MemoryLedger.find k0 (MemoryLedger.entries s) = None
    /\ s' = {| MemoryLedger.entries :=
                 (k0, (h, 1700000000 + MemoryLedger.height s,
                       MemoryLedger.issuer_address))
                   :: MemoryLedger.entries s;
               MemoryLedger.height := MemoryLedger.height s + 1 |}.
Proof.
  cbv beta iota delta
    [ ledger_submit getSigner getProvider getCertificateContract bind ret lift
      MemoryLedger.client new_JsonRpcProvider new_Wallet new_Contract
      contract_storeCertificate tx_wait MemoryLedger.storeCertificate negb ].
  destruct k; try discriminate.
  destruct (is_bytes32_hex h); try discriminate.
  destruct (MemoryLedger.find s0 (MemoryLedger.entries s)) eqn:Hf;
    try discriminate.
  intros H. apply (f_equal snd) in H. cbn [snd] in H. subst s'.
  exists s0. repeat split. exact Hf.
Qed.

Lemma MemoryLedger_store_then_query : store_then_query MemoryLedger.client.
Proof.
  intros k h s tx s' _ Hs.
  apply MemoryLedger_submit_inv in Hs.
  destruct Hs as (k0 & -> & _ & _ & ->).
  exists (1700000000 + MemoryLedger.height s), MemoryLedger.issuer_address.
  cbv beta iota delta
    [ ledger_query getProvider getCertificateContract bind ret lift view
      MemoryLedger.client new_JsonRpcProvider new_Contract
      contract_verifyCertificate MemoryLedger.verifyCertificate
      MemoryLedger.entries ].
  now rewrite MemoryLedger_find_head.
Qed.

(** ** The claims *)

(** C6. For every certificate record the derived fingerprint is a lowercase
    hexadecimal string prefixed with [0x], 66 characters long: the prefix and
    the 64 digits of a 32-byte digest. *)
Theorem fingerprint_boundary_encoding (props : list (string * JsValue)) :
  exists digits,
    generateCertificateHash (JsObject props) = Ok ("0x" ++ digits)
    /\ String.length ("0x" ++ digits) = 66%nat
    /\ String.length digits = 64%nat
    /\ all_chars is_lower_hex_digit digits = true.
Proof.
  rewrite generateCertificateHash_object.
  unfold keccak256, hexlify.
  eexists. split; [reflexivity |].
  cbn [append String.length].
  rewrite hex_of_bytes_length, keccak256_bytes_length, hex_of_bytes_lower.
  repeat split.
Qed.

(** C2. Two inputs that carry the same properties, in whatever order they
    appear in the object, get the same fingerprint. *)
Theorem fingerprint_independent_of_field_order
  (props props' : list (string * JsValue)) :
  NoDup (map fst props) ->
  Permutation props props' ->
  generateCertificateHash (JsObject props)
  = generateCertificateHash (JsObject props').
Proof.
  intros Hnd Hp. apply generateCertificateHash_ext.
  intros name _. now apply lookup_permutation.
Qed.

(** C9. The fingerprint depends on the five named fields only: two inputs
    that agree on them get the same fingerprint, whatever other properties
    either of them carries. *)
Theorem fingerprint_depends_on_five_fields_only
  (props props' : list (string * JsValue)) :
  (forall name, In name record_fields ->
                lookup name props = lookup name props') ->
  generateCertificateHash (JsObject props)
  = generateCertificateHash (JsObject props')
  /\ generateCertificateHash (JsObject props)
     = Ok (keccak256 (toUtf8Bytes (JSON_stringify_object
         [ ("certificateNumber", lookup "certificateNumber" props');
           ("recipientName", lookup "recipientName" props');
           ("certificateType", lookup "certificateType" props');
           ("issueDate", lookup "issueDate" props');
           ("issuingEntityId", lookup "issuingEntityId" props') ]))).
Proof.
  intros H. split.
  - now apply generateCertificateHash_ext.
  - rewrite (generateCertificateHash_ext _ _ H). reflexivity.
Qed.

(** C8. The health check never throws: whatever the provider calls do, it
    returns a value; a failed probe gives [connected = false] with a
    description of the error, a successful one [connected = true] with the
    network name and the block height. *)
Theorem checkBlockchainConnection_never_throws (E : Ethers) (s : St E) :
  exists r,
    checkBlockchainConnection E s = (Ok r, s)
    /\ match fst (ledger_probe E s) with
       | Ok (network_name, height) =>
           r = {| connected := true;
                  network := Some network_name;
                  blockNumber := Some height;
                  connection_error := None |}
       | Throw error =>
           connected r = false /\ network r = None /\ blockNumber r = None
           /\ exists description,
                connection_error r = Some description
                /\ description <> ""
                /\ (message error <> "" -> description = message error)
       end.
Proof.
  rewrite checkBlockchainConnection_run.
  eexists. split; [reflexivity |].
  destruct (fst (ledger_probe E s)) as [[n h] | e]; [reflexivity |].
  cbn. repeat split.
  eexists. split; [reflexivity |]. split.
  - now apply or_string_nonempty.
  - intros Hm. unfold or_string.
    destruct (String.eqb_spec (message e) ""); congruence.
Qed.

(** C4. A key that was never anchored (the ledger returns the all-zero hash)
    gives a successful not-anchored verdict from the existence check (the
    library function and its [GET] route) and from the match check; an error
    result is returned exactly when the ledger query throws. *)
Theorem absence_is_a_verdict_not_an_error
  (E : Ethers) (K : JsValue) (s : St E) :
  exists r,
    verifyCertificateOnBlockchain E K s = (Ok r, s)
    /\ (verify_success r = false <->
        exists error, fst (ledger_query E K s) = Throw error)
    /\ (forall timestamp issuer,
          fst (ledger_query E K s) = Ok (ZeroHash, timestamp, issuer) ->
          r = {| verify_success := true;
                 verify_verified := false;
                 verify_blockchainHash := None;
                 verify_timestamp := None;
                 verify_issuer := None;
                 verify_error := None |})
    /\ (forall k,
          K = JsString k -> k <> "" ->
          exists found,
            GET_verify E (Some k) s = (Ok found, s)
            /\ (status found = 500 <->
                exists error, fst (ledger_query E K s) = Throw error)
            /\ (forall timestamp issuer,
                  fst (ledger_query E K s) = Ok (ZeroHash, timestamp, issuer) ->
                  status found = 200
                  /\ response_field found "success" = JsBool true
                  /\ data_field found "verified" = JsBool false
                  /\ data_field found "blockchainHash" = JsUndefined))
    /\ (forall b D,
          well_formed_request b K D ->
          exists resp,
            POST_verify E (Ok b) s = (Ok resp, s)
            /\ (status resp = 500 <->
                exists error, fst (ledger_query E K s) = Throw error)
            /\ (forall timestamp issuer,
                  fst (ledger_query E K s) = Ok (ZeroHash, timestamp, issuer) ->
                  status resp = 200
                  /\ response_field resp "success" = JsBool true
                  /\ verdict_of resp = Some NotAnchored)).
Proof.
  rewrite verifyCertificateOnBlockchain_run.
  eexists. split; [reflexivity |].
  destruct (fst (ledger_query E K s)) as [[[h ts] iss] | e] eqn:Hq.
  - split; [| split; [| split]].
    + split; [discriminate | intros [e He]; discriminate].
    + intros ts' iss' [= -> _ _]. reflexivity.
    + intros k HKk Hk. rewrite (GET_verify_run E k s Hk).
      subst K. rewrite Hq.
      eexists. split; [reflexivity |]. split.
      * split; [| intros [e He]; discriminate].
        destruct (h =? ZeroHash)%string; discriminate.
      * intros ts' iss' [= -> _ _]. repeat split.
    + intros b D Hwf.
      destruct (generateCertificateHash_truthy D) as (lh & Hlh & _);
        [ apply Hwf |].
      rewrite (POST_verify_run E b K D lh s Hwf Hlh), Hq.
      eexists. split; [reflexivity |]. split.
      * split; [| intros [e He]; discriminate].
        destruct (h =? ZeroHash)%string; discriminate.
      * intros ts' iss' [= -> _ _]. repeat split.
  - split; [| split; [| split]].
    + split; [eauto | reflexivity].
    + discriminate.
    + intros k HKk Hk. rewrite (GET_verify_run E k s Hk).
      subst K. rewrite Hq.
      eexists. split; [reflexivity |]. split.
      * split; [eauto | reflexivity].
      * discriminate.
    + intros b D Hwf.
      destruct (generateCertificateHash_truthy D) as (lh & Hlh & _);
        [ apply Hwf |].
      rewrite (POST_verify_run E b K D lh s Hwf Hlh), Hq.
      eexists. split; [reflexivity |]. split.
      * split; [eauto | reflexivity].
      * discriminate.
Qed.

(** C10. When the match check finds no ledger record, the data of its
    response is exactly [{verified: false, hashMatch: false}], whatever
    certificate record was supplied: no hash, timestamp or issuer is
    returned. *)
Theorem not_anchored_response_is_minimal
  (E : Ethers) (b K D : JsValue) (s : St E) (timestamp : Z) (issuer : string) :
  well_formed_request b K D ->
  fst (ledger_query E K s) = Ok (ZeroHash, timestamp, issuer) ->
  exists resp,
    POST_verify E (Ok b) s = (Ok resp, s)
    /\ response_data resp
       = JsObject [ ("verified", JsBool false); ("hashMatch", JsBool false) ]
    /\ data_field resp "localHash" = JsUndefined
    /\ data_field resp "blockchainHash" = JsUndefined
    /\ data_field resp "timestamp" = JsUndefined
    /\ data_field resp "issuer" = JsUndefined
    /\ (forall b' D',
          well_formed_request b' K D' ->
          POST_verify E (Ok b') s = (Ok resp, s)).
Proof.
  intros Hwf Hq.
  destruct (generateCertificateHash_truthy D) as (lh & Hlh & _);
    [ apply Hwf |].
  exists not_found_response.
  rewrite (POST_verify_run E b K D lh s Hwf Hlh), Hq.
  repeat split.
  intros b' D' Hwf'.
  destruct (generateCertificateHash_truthy D') as (lh' & Hlh' & _);
    [ apply Hwf' |].
  now rewrite (POST_verify_run E b' K D' lh' s Hwf' Hlh'), Hq.
Qed.

(** A store request answered with status 200 was well formed and its write
    was confirmed. *)
Lemma POST_store_success_inv
  (E : Ethers) (b K D : JsValue) (s s' : St E) (resp : Response) :
  destructure_body b = Ok (K, D) ->
  POST_store E (Ok b) s = (Ok resp, s') ->
  status resp = 200 ->
  exists h tx,
    well_formed_request b K D
    /\ generateCertificateHash D = Ok h
    /\ is_bytes32_hex h = true
    /\ ledger_submit E K h s = (Ok tx, s')
    /\ resp = stored_response h tx.
Proof.
  intros Hb Hrun Hst.
  destruct (truthy K) eqn:HK; [destruct (truthy D) eqn:HD |].
  - destruct (generateCertificateHash_truthy D HD) as (h & Hh & H32).
    assert (Hwf : well_formed_request b K D) by (repeat split; assumption).
    rewrite (POST_store_run E b K D h s Hwf Hh H32) in Hrun.
    destruct (ledger_submit E K h s) as [[tx | e] s1] eqn:Hsub;
      cbn [fst snd] in Hrun.
    + exists h, tx. repeat split; try assumption; congruence.
    + exfalso. assert (status resp = 500) by (now inversion Hrun; subst).
      congruence.
  - exfalso. revert Hrun.
    cbv beta iota delta [POST_store bind ret lift try_catch].
    rewrite Hb, HK, HD. cbn [negb orb]. intros Hrun.
    assert (status resp = 400) by (now inversion Hrun; subst). congruence.
  - exfalso. revert Hrun.
    cbv beta iota delta [POST_store bind ret lift try_catch].
    rewrite Hb, HK. cbn [negb orb]. intros Hrun.
    assert (status resp = 400) by (now inversion Hrun; subst). congruence.
Qed.

(** C1. After record R was anchored under key K by a store request that
    succeeded, a match verification of K and R against that ledger state
    gives the verdict anchored-and-matches, with equal local and ledger
    fingerprints.  The anchored fingerprint is a ledger record, that is, not
    the all-zero hash that stands for an absent one. *)
Theorem anchor_then_verify_matches
  (E : Ethers) (b b' K : JsValue) (props : list (string * JsValue))
  (s s' : St E) (resp : Response) :
  store_then_query E ->
  destructure_body b = Ok (K, JsObject props) ->
  destructure_body b' = Ok (K, JsObject props) ->
  POST_store E (Ok b) s = (Ok resp, s') ->
  status resp = 200 ->
  generateCertificateHash (JsObject props) <> Ok ZeroHash ->
  exists fingerprint timestamp issuer verdict,
    generateCertificateHash (JsObject props) = Ok fingerprint
    /\ POST_verify E (Ok b') s' = (Ok verdict, s')
    /\ status verdict = 200
    /\ response_field verdict "success" = JsBool true
    /\ verdict_of verdict = Some AnchoredAndMatches
    /\ data_field verdict "verified" = JsBool true
    /\ data_field verdict "hashMatch" = JsBool true
    /\ data_field verdict "localHash" = JsString fingerprint
    /\ data_field verdict "blockchainHash" = JsString fingerprint
    /\ data_field verdict "timestamp" = JsNumber timestamp
    /\ data_field verdict "issuer" = JsString issuer.
Proof.
  intros Hlaw Hb Hb' Hrun Hst Hnz.
  destruct (POST_store_success_inv E b K _ s s' resp Hb Hrun Hst)
    as (h & tx & (_ & HK & HD) & Hh & H32 & Hsub & _).
  destruct (Hlaw K h s tx s' H32 Hsub) as (ts & iss & Hq).
  assert (Hwf' : well_formed_request b' K (JsObject props))
    by (repeat split; assumption).
  exists h, (Number_of_bigint ts), iss,
    (compared_response h h (Number_of_bigint ts) iss).
  rewrite (POST_verify_run E b' K _ h s' Hwf' Hh), Hq. cbn [fst].
  assert (Hz : (h =? ZeroHash)%string = false).
  { apply String.eqb_neq. congruence. }
  rewrite Hz. unfold compared_response. rewrite String.eqb_refl.
  repeat split. exact Hh.
Qed.

(** ** The store route: validation and failures *)

Lemma POST_store_rejected (E : Ethers) (b K D : JsValue) (s : St E) :
  destructure_body b = Ok (K, D) ->
  truthy K = false \/ truthy D = false ->
  POST_store E (Ok b) s
  = (Ok (error_response "Certificate number and data are required" 400), s).
Proof.
  intros Hb Hf.
  cbv beta iota delta [POST_store bind ret lift try_catch].
  rewrite Hb.
  destruct Hf as [-> | ->]; [reflexivity |].
  now destruct (truthy K).
Qed.

Lemma POST_store_unreadable (E : Ethers) (rq : Outcome JsValue) (s : St E)
  (error : JsError) :
  rq = Throw error
  \/ (exists b, rq = Ok b /\ destructure_body b = Throw error) ->
  POST_store E rq s = (Ok (internal_error error), s).
Proof.
  intros [-> | (b & -> & Hb)];
    cbv beta iota delta [POST_store bind ret lift try_catch];
    [| rewrite Hb]; reflexivity.
Qed.

(** C7, as the program has it.  The store route answers with status 400,
    leaving the ledger alone, exactly when the certificate number or the
    certificate data of the body is missing or falsy; the fields of the
    record are not looked at.  On a well-formed request a failure of the
    ledger write gives status 500 with the message of the ledger error, or a
    fixed text when that message is empty.  The route itself never throws. *)
Theorem store_validation_and_failures
  (E : Ethers) (rq : Outcome JsValue) (s : St E) :
  exists resp s',
    POST_store E rq s = (Ok resp, s')
    /\ (status resp = 400 <->
        exists b K D,
          rq = Ok b /\ destructure_body b = Ok (K, D)
          /\ (truthy K = false \/ truthy D = false))
    /\ (status resp = 400 ->
        s' = s
        /\ resp = error_response "Certificate number and data are required" 400)
    /\ (forall b K D,
          rq = Ok b -> well_formed_request b K D ->
          exists certificateHash,
            generateCertificateHash D = Ok certificateHash
            /\ s' = snd (ledger_submit E K certificateHash s)
            /\ match fst (ledger_submit E K certificateHash s) with
               | Ok transactionHash =>
                   resp = stored_response certificateHash transactionHash
               | Throw error =>
                   status resp = 500
                   /\ response_field resp "success" = JsBool false
                   /\ response_field resp "message"
                      = JsString (or_string (message error)
                                    "Failed to store certificate on blockchain")
                   /\ (message error <> "" ->
                       response_field resp "message"
                       = JsString (message error))
               end).
Proof.
  destruct rq as [b | e].
  2:{ rewrite (POST_store_unreadable E _ s e) by now left.
      do 2 eexists. split; [reflexivity |].
      split; [| split].
      - split; [discriminate | intros (b & K & D & [=] & _)].
      - discriminate.
      - discriminate. }
  destruct (destructure_body b) as [[K D] | e] eqn:Hb.
  2:{ rewrite (POST_store_unreadable E _ s e) by (right; eauto).
      do 2 eexists. split; [reflexivity |].
      split; [| split].
      - split; [discriminate |].
        intros (b0 & K & D & [= <-] & Hb0 & _). congruence.
      - discriminate.
      - intros b0 K D [= <-] (Hb0 & _). congruence. }
  destruct (truthy K) eqn:HK; [destruct (truthy D) eqn:HD |].
  - destruct (generateCertificateHash_truthy D HD) as (h & Hh & H32).
    assert (Hwf : well_formed_request b K D) by (repeat split; assumption).
    rewrite (POST_store_run E b K D h s Hwf Hh H32).
    do 2 eexists. split; [reflexivity |].
    assert (Hst : forall r, r = match fst (ledger_submit E K h s) with
                     | Ok receipt_hash => stored_response h receipt_hash
                     | Throw error =>
                         error_response
                           (or_string (message error)
                              "Failed to store certificate on blockchain") 500
                     end -> status r <> 400).
    { intros r ->. destruct (fst (ledger_submit E K h s)); discriminate. }
    split; [| split].
    + split.
      * intros H400. exfalso. eapply Hst; [reflexivity | exact H400].
      * intros (b0 & K0 & D0 & [= <-] & Hb0 & Hf).
        rewrite Hb in Hb0. injection Hb0 as <- <-.
        destruct Hf; congruence.
    + intros H400. exfalso. eapply Hst; [reflexivity | exact H400].
    + intros b0 K0 D0 [= <-] (Hb0 & _).
      rewrite Hb in Hb0. injection Hb0 as <- <-.
      exists h. split; [exact Hh |]. split; [reflexivity |].
      destruct (fst (ledger_submit E K h s)) as [tx | e]; [reflexivity |].
      repeat split.
      intros Hm. cbn. unfold or_string.
      destruct (String.eqb_spec (message e) ""); congruence.
  - rewrite (POST_store_rejected E b K D s Hb) by now right.
    do 2 eexists. split; [reflexivity |].
    split; [| split].
    + split; [| reflexivity]. intros _. exists b, K, D. auto.
    + intros _. split; reflexivity.
    + intros b0 K0 D0 [= <-] (Hb0 & HK0 & HD0).
      rewrite Hb in Hb0. injection Hb0 as <- <-. congruence.
  - rewrite (POST_store_rejected E b K D s Hb) by now left.
    do 2 eexists. split; [reflexivity |].
    split; [| split].
    + split; [| reflexivity]. intros _. exists b, K, D. auto.
    + intros _. split; reflexivity.
    + intros b0 K0 D0 [= <-] (Hb0 & HK0 & HD0).
      rewrite Hb in Hb0. injection Hb0 as <- <-. congruence.
Qed.

(** C7 as stated fails: a record none of whose fields is present passes the
    check of the store route and is anchored. *)
Lemma store_accepts_record_without_fields :
  let certificateData := JsObject [] in
  Forall (fun name => get_property certificateData name = Ok JsUndefined)
    record_fields
  /\ exists resp s',
       POST_store MemoryLedger.client
         (Ok (request_body example_key certificateData)) MemoryLedger.empty
       = (Ok resp, s')
       /\ status resp = 200
       /\ response_field resp "success" = JsBool true
       /\ MemoryLedger.entries s' <> [].
Proof.
  split.
  - repeat constructor.
  - do 2 eexists. split; [vm_compute; reflexivity |].
    repeat split. discriminate.
Qed.

(** ** Hex encodings and the digests they stand for *)

Lemma hex_value_hex_char (d : Z) :
  0 <= d < 16 -> hex_value (hex_char d) = Some d.
Proof.
  intros H.
  assert (Hd : In d [0;1;2;3;4;5;6;7;8;9;10;11;12;13;14;15]).
  { simpl. lia. }
  simpl in Hd.
  repeat (destruct Hd as [<- | Hd]; [reflexivity |]).
  contradiction.
Qed.

Lemma byte_of_nibbles (b : Z) :
  is_byte b -> 16 * Z.shiftr (Z.land b 0xf0) 4 + Z.land b 0x0f = b.
Proof.
  unfold is_byte. intros H.
  rewrite Z.shiftr_land.
  change (Z.shiftr 0xf0 4) with (Z.ones 4).
  change 0x0f with (Z.ones 4).
  rewrite !Z.land_ones by lia.
  rewrite Z.shiftr_div_pow2 by lia.
  change (2 ^ 4) with 16.
  rewrite (Z.mod_small (b / 16)).
  - symmetry. apply Z.div_mod. lia.
  - split; [apply Z.div_pos; lia | apply Z.div_lt_upper_bound; lia].
Qed.

Lemma bytes_of_hex_of_bytes (bs : list Z) :
  Forall is_byte bs -> bytes_of_hex (hex_of_bytes bs) = Some bs.
Proof.
  induction 1 as [| b bs Hb _ IH]; [reflexivity |].
  cbn [hex_of_bytes fold_right bytes_of_hex].
  rewrite (hex_value_hex_char _ (high_nibble_range b)).
  rewrite (hex_value_hex_char _ (low_nibble_range b)).
  fold (hex_of_bytes bs). rewrite IH.
  now rewrite (byte_of_nibbles b Hb).
Qed.

Lemma getBytes_hexlify (bs : list Z) :
  Forall is_byte bs -> getBytes (hexlify bs) = Some bs.
Proof.
  intros H. unfold hexlify. cbn [append getBytes].
  cbn. now apply bytes_of_hex_of_bytes.
Qed.

Lemma hexlify_inj (d1 d2 : list Z) :
  Forall is_byte d1 -> Forall is_byte d2 ->
  hexlify d1 = hexlify d2 -> d1 = d2.
Proof.
  intros H1 H2 Heq.
  apply getBytes_hexlify in H1, H2.
  rewrite Heq in H1. congruence.
Qed.


(** ** Digests as numbers, and why two records must share one *)

Lemma digest_value_bound (bs : list Z) :
  Forall is_byte bs ->
  0 <= digest_value bs < 256 ^ Z.of_nat (List.length bs).
Proof.
  induction 1 as [| b bs Hb _ IH]; [cbn; lia |].
  cbn [digest_value fold_right List.length].
  fold (digest_value bs).
  rewrite Nat2Z.inj_succ, Z.pow_succ_r by lia.
  unfold is_byte in Hb. lia.
Qed.

Lemma digest_value_inj (l1 l2 : list Z) :
  Forall is_byte l1 -> Forall is_byte l2 ->
  List.length l1 = List.length l2 ->
  digest_value l1 = digest_value l2 -> l1 = l2.
Proof.
  intros H1. revert l2.
  induction H1 as [| b1 l1 Hb1 _ IH]; intros l2 H2 Hlen Hv.
  - destruct l2; [reflexivity | discriminate].
  - destruct l2 as [| b2 l2]; [discriminate |].
    inversion H2 as [| ? ? Hb2 H2']; subst.
    cbn [digest_value fold_right] in Hv.
    fold (digest_value l1) in Hv. fold (digest_value l2) in Hv.
    unfold is_byte in Hb1, Hb2.
    assert (b1 = b2) by lia.
    assert (digest_value l1 = digest_value l2) by lia.
    subst b2. f_equal. apply IH; auto.
Qed.

Lemma bounded_search (P : Z -> Prop) (N : Z) :
  (forall n, P n \/ ~ P n) ->
  0 <= N ->
  (exists i, 0 <= i < N /\ P i) \/ (forall i, 0 <= i < N -> ~ P i).
Proof.
  intros Hdec HN. revert N HN.
  apply (natlike_ind
           (fun N => (exists i, 0 <= i < N /\ P i)
                     \/ (forall i, 0 <= i < N -> ~ P i))).
  - right. intros i Hi. lia.
  - intros N HN [(i & Hi & HP) | Hnone].
    + left. exists i. split; [lia | exact HP].
    + destruct (Hdec N) as [HP | HnP].
      * left. exists N. split; [lia | exact HP].
      * right. intros i Hi.
        destruct (Z.eq_dec i N) as [-> | Hne]; [exact HnP |].
        apply Hnone. lia.
Qed.

(** [N + 1] arguments sent into [N] values: two of them get the same. *)
Lemma pigeonhole (N : Z) :
  0 <= N ->
  forall f : Z -> Z,
    (forall n, 0 <= n <= N -> 0 <= f n < N) ->
    exists i j, 0 <= i < j /\ j <= N /\ f i = f j.
Proof.
  intros HN. revert N HN.
  apply (natlike_ind
           (fun N => forall f : Z -> Z,
                (forall n, 0 <= n <= N -> 0 <= f n < N) ->
                exists i j, 0 <= i < j /\ j <= N /\ f i = f j)).
  - intros f Hf. specialize (Hf 0). lia.
  - intros N HN IH f Hf.
    destruct (bounded_search (fun i => f i = f (Z.succ N)) (Z.succ N))
      as [(i & Hi & Heq) | Hnone].
    + intros n. destruct (Z.eq_dec (f n) (f (Z.succ N))); auto.
    + lia.
    + exists i, (Z.succ N). repeat split; lia.
    + set (v := f (Z.succ N)) in *.
      assert (Hv : 0 <= v < Z.succ N) by (apply Hf; lia).
      destruct (IH (fun n => if (f n <? v)%Z then f n else f n - 1))
        as (i & j & Hij & HjN & Heq).
      * intros n Hn.
        assert (Hfn : 0 <= f n < Z.succ N) by (apply Hf; lia).
        assert (Hne : f n <> v) by (apply Hnone; lia).
        destruct (Z.ltb_spec (f n) v); lia.
      * exists i, j. repeat split; try lia.
        assert (Hi : f i <> v) by (apply Hnone; lia).
        assert (Hj : f j <> v) by (apply Hnone; lia).
        cbv beta in Heq.
        destruct (Z.ltb_spec (f i) v); destruct (Z.ltb_spec (f j) v); lia.
Qed.

Lemma numbered_digest_range (n : Z) : 0 <= numbered_digest n < 256 ^ 32.
Proof.
  unfold numbered_digest.
  pose proof (digest_value_bound _ (keccak256_bytes_range
    (toUtf8Bytes (canonical_json "CERT-2025-ABC123" (Number_toString n)
                    "Achievement" "2025-01-15" 1)))) as H.
  rewrite keccak256_bytes_length in H. exact H.
Qed.

Lemma numbered_record_hash (n : Z) :
  generateCertificateHash (numbered_record n)
  = Ok (keccak256
          (toUtf8Bytes
             (canonical_json "CERT-2025-ABC123" (Number_toString n)
                "Achievement" "2025-01-15" 1))).
Proof. reflexivity. Qed.

Lemma certificate_record_hash (a b c d : string) (n : Z) :
  generateCertificateHash (certificate_record a b c d n)
  = Ok (keccak256 (toUtf8Bytes (canonical_json a b c d n))).
Proof. reflexivity. Qed.

Lemma Number_toString_inj (n m : Z) :
  Number_toString n = Number_toString m -> n = m.
Proof.
  unfold Number_toString. intros H.
  assert (Hn : forall z, NilZero.int_of_string
                           (NilZero.string_of_int (Z.to_int z))
                         = Some (Z.to_int z)).
  { intros z. apply NilZero.isi; destruct z; cbn; try discriminate;
      intros [= Hp]; now apply Unsigned.to_uint_nonnil in Hp. }
  apply DecimalZ.to_int_inj.
  pose proof (Hn n) as H1. rewrite H, Hn in H1. congruence.
Qed.

(** Two records of the family, with different recipient names, have the same
    fingerprint. *)
Lemma numbered_records_collide :
  exists i j,
    0 <= i < j /\ j <= 256 ^ 32
    /\ Number_toString i <> Number_toString j
    /\ generateCertificateHash (numbered_record i)
       = generateCertificateHash (numbered_record j).
Proof.
  destruct (pigeonhole (256 ^ 32) ltac:(lia) numbered_digest)
    as (i & j & Hij & HjN & Heq).
  - intros n _. apply numbered_digest_range.
  - exists i, j. split; [lia |]. split; [exact HjN |]. split.
    + intros H. apply Number_toString_inj in H. lia.
    + rewrite !numbered_record_hash. unfold keccak256. do 2 f_equal.
      apply digest_value_inj;
        try apply keccak256_bytes_range;
        [ now rewrite !keccak256_bytes_length | exact Heq ].
Qed.

Lemma MemoryLedger_submit_fresh (k h : string) :
  is_bytes32_hex h = true ->
  exists tx s1,
    ledger_submit MemoryLedger.client (JsString k) h MemoryLedger.empty
    = (Ok tx, s1).
Proof.
  intros H32.
  cbv beta iota delta
    [ ledger_submit getSigner getProvider getCertificateContract bind ret lift
      MemoryLedger.client new_JsonRpcProvider new_Wallet new_Contract
      contract_storeCertificate tx_wait MemoryLedger.storeCertificate negb
      MemoryLedger.empty MemoryLedger.entries MemoryLedger.find ].
  rewrite H32. do 2 eexists. reflexivity.
Qed.

(** C3 as stated fails: the records numbered 0 to 2^256 differ in the
    recipient name only and are more than there are digests, so there are two
    of them such that, after the first was anchored, the match check of the
    second is not a mismatch. *)
Lemma tamper_detection_has_exceptions :
  exists i j resp s1 verdict,
    0 <= i < j /\ j <= 2 ^ 256
    /\ get_property (numbered_record i) "recipientName"
       <> get_property (numbered_record j) "recipientName"
    /\ POST_store MemoryLedger.client
         (Ok (request_body example_key (numbered_record i)))
         MemoryLedger.empty
       = (Ok resp, s1)
    /\ status resp = 200
    /\ POST_verify MemoryLedger.client
         (Ok (request_body example_key (numbered_record j))) s1
       = (Ok verdict, s1)
    /\ verdict_of verdict <> Some AnchoredButMismatch.
Proof.
  destruct numbered_records_collide as (i & j & Hij & HjN & Hname & Hcol).
  destruct (generateCertificateHash_truthy (numbered_record i) eq_refl)
    as (h & Hi & H32).
  assert (Hj : generateCertificateHash (numbered_record j) = Ok h)
    by now rewrite <- Hcol.
  destruct (MemoryLedger_submit_fresh "CERT-2025-ABC123" h H32)
    as (tx & s1 & Hsub).
  fold example_key in Hsub.
  destruct (MemoryLedger_store_then_query _ _ _ _ _ H32 Hsub)
    as (ts & iss & Hq).
  assert (Hwf : forall n,
             well_formed_request (request_body example_key (numbered_record n))
               example_key (numbered_record n))
    by (intros n; repeat split).
  exists i, j, (stored_response h tx), s1.
  exists (if (h =? ZeroHash)%string then not_found_response
          else compared_response h h (Number_of_bigint ts) iss).
  split; [exact Hij |]. split; [exact HjN |].
  split; [| split; [| split; [| split]]].
  - cbn [numbered_record certificate_record get_property lookup String.eqb
           Ascii.eqb Bool.eqb].
    intros H. apply Hname.
    apply (f_equal (fun o => match o with
                             | Ok (JsString t) => t
                             | _ => ""
                             end)) in H.
    exact H.
  - rewrite (POST_store_run _ _ _ _ h _ (Hwf i) Hi H32), Hsub. reflexivity.
  - reflexivity.
  - rewrite (POST_verify_run _ _ _ _ h _ (Hwf j) Hj), Hq. reflexivity.
  - destruct (h =? ZeroHash)%string; [discriminate |].
    unfold compared_response. rewrite String.eqb_refl. discriminate.
Qed.

(** ** Records that differ are serialised differently *)

Lemma append_assoc (a b c : string) : (a ++ b) ++ c = a ++ (b ++ c).
Proof. induction a as [| x a IH]; cbn; [reflexivity | now rewrite IH]. Qed.

Lemma append_length (a b : string) :
  String.length (a ++ b) = (String.length a + String.length b)%nat.
Proof. induction a as [| x a IH]; cbn; [reflexivity | now rewrite IH]. Qed.

Lemma append_inv_tail (a b t : string) : a ++ t = b ++ t -> a = b.
Proof.
  revert b. induction a as [| x a IH]; intros [| y b] H.
  - reflexivity.
  - apply (f_equal String.length) in H. cbn in H.
    rewrite append_length in H. lia.
  - apply (f_equal String.length) in H. cbn in H.
    rewrite append_length in H. lia.
  - cbn in H. injection H as -> H. f_equal. now apply IH.
Qed.

Lemma string_tail_eq (c c' : ascii) (s s' : string) :
  String c s = String c' s' -> s = s'.
Proof. now intros [= _ ->]. Qed.

Lemma unquote_quote_char (c : ascii) (r : string) :
  unquote_char (quote_char c ++ r) = Some (c, r).
Proof. destruct c as [[] [] [] [] [] [] [] []]; reflexivity. Qed.

Lemma quote_chars_inj (a a' r r' : string) :
  quote_chars a ++ String dquote r = quote_chars a' ++ String dquote r' ->
  a = a' /\ r = r'.
Proof.
  revert a'. induction a as [| c a IH]; intros [| c' a'] H;
    cbn [quote_chars] in H; rewrite ?append_assoc in H.
  - cbn in H. apply string_tail_eq in H. now split.
  - apply (f_equal unquote_char) in H.
    rewrite unquote_quote_char in H. discriminate.
  - apply (f_equal unquote_char) in H.
    rewrite unquote_quote_char in H. discriminate.
  - apply (f_equal unquote_char) in H.
    rewrite !unquote_quote_char in H.
    injection H as -> H.
    destruct (IH _ H) as [-> ->]. now split.
Qed.

Arguments Number_toString : simpl never.

(** The canonical text determines the record: two records of four strings
    and an integer with the same text have the same fields. *)
Lemma canonical_json_inj (a b c d a' b' c' d' : string) (n n' : Z) :
  canonical_json a b c d n = canonical_json a' b' c' d' n' ->
  a = a' /\ b = b' /\ c = c' /\ d = d' /\ n = n'.
Proof.
  intros H.
  unfold canonical_json, JSON_stringify_object in H.
  cbn in H. repeat (rewrite append_assoc in H; cbn in H).
  repeat apply string_tail_eq in H.
  apply quote_chars_inj in H. destruct H as [-> H].
  repeat apply string_tail_eq in H.
  apply quote_chars_inj in H. destruct H as [-> H].
  repeat apply string_tail_eq in H.
  apply quote_chars_inj in H. destruct H as [-> H].
  repeat apply string_tail_eq in H.
  apply quote_chars_inj in H. destruct H as [-> H].
  repeat apply string_tail_eq in H.
  apply append_inv_tail, Number_toString_inj in H.
  now subst.
Qed.

(** Sensitivity, up to the hash: records that differ in a field are hashed
    from different texts. *)
Lemma tampered_record_has_another_text
  (a b c d a' b' c' d' : string) (n n' : Z) :
  certificate_record a b c d n <> certificate_record a' b' c' d' n' ->
  toUtf8Bytes (canonical_json a b c d n)
  <> toUtf8Bytes (canonical_json a' b' c' d' n').
Proof.
  intros Hne Heq. apply Hne.
  assert (Ht : canonical_json a b c d n = canonical_json a' b' c' d' n').
  { rewrite <- (string_of_list_ascii_of_string (canonical_json a b c d n)).
    rewrite <- (string_of_list_ascii_of_string
                  (canonical_json a' b' c' d' n')).
    f_equal. unfold toUtf8Bytes in Heq.
    revert Heq.
    generalize (list_ascii_of_string (canonical_json a b c d n)).
    generalize (list_ascii_of_string (canonical_json a' b' c' d' n')).
    intros l2 l1. revert l2.
    induction l1 as [| x l1 IH]; intros [| y l2] H; try discriminate.
    - reflexivity.
    - cbn [map] in H. injection H as Hxy Hl.
      f_equal; [| now apply IH].
      apply N2Z.inj in Hxy.
      rewrite <- (ascii_N_embedding x), <- (ascii_N_embedding y).
      now rewrite Hxy. }
  apply canonical_json_inj in Ht.
  destruct Ht as (-> & -> & -> & -> & ->). reflexivity.
Qed.

(* ================================================================= *)
(** * The program on the documentation's example *)

(** Keccak-256 of the empty string and of ["abc"]. *)
Example keccak256_empty :
  keccak256 (toUtf8Bytes "")
  = "0xc5d2460186f7233c927e7db2dcc703c0e500b653ca82273b7bfad8045d85a470".
Proof. vm_compute. reflexivity. Qed.

Example keccak256_abc :
  keccak256 (toUtf8Bytes "abc")
  = "0x4e03657aea45a94fc7d47ba826c8d667c0d1e6e33a64a036ec44f58fa12d6c45".
Proof. vm_compute. reflexivity. Qed.

(** A message longer than one block of 136 bytes. *)
Example keccak256_three_blocks :
  keccak256 (repeat 97 300)
  = "0x5b7e0e47a96f32a88b4f14ca177982790807c40e1a105742ba0fc1babe1ef826".
Proof. vm_compute. reflexivity. Qed.

(** A message that fills a block up to its last byte. *)
Example keccak256_one_byte_of_padding :
  keccak256 (repeat 97 135)
  = "0x34367dc248bbd832f4e3e69dfaac2f92638bd0bbd18f2912ba4ef454919cf446".
Proof. vm_compute. reflexivity. Qed.

Example example_record_hash :
  generateCertificateHash example_record = Ok example_fingerprint.
Proof. vm_compute. reflexivity. Qed.

Example example_record_is_its_props : example_record = JsObject example_props.
Proof. reflexivity. Qed.

Example example_store_run :
  POST_store MemoryLedger.client (Ok example_request) MemoryLedger.empty
  = (Ok example_store_response, example_anchored_state).
Proof. vm_compute. reflexivity. Qed.

Example hash_of_null_throws :
  exists e, generateCertificateHash JsNull = Throw e.
Proof. eexists. reflexivity. Qed.

Example stringify_escapes_and_drops_undefined :
  JSON_stringify_object
    [ ("a", JsString (String "010"%char (String backslash "z")));
      ("b", JsUndefined);
      ("c", JsArray [JsNumber (-12); JsNull; JsBool true; JsObject [];
                     JsUndefined]) ]
  = String "{" (String dquote (String "a" (String dquote (String ":"
      (String dquote (String backslash (String "n" (String backslash
      (String backslash (String "z" (String dquote
      (String "," (String dquote (String "c" (String dquote
      ":[-12,null,true,{},null]}"))))))))))))))).
Proof. vm_compute. reflexivity. Qed.

(** ** The theorems at the example *)

Lemma example_request_well_formed :
  well_formed_request example_request example_key example_record.
Proof. repeat split. Qed.

Lemma fingerprint_independent_of_field_order_witness :
  NoDup (map fst example_props)
  /\ Permutation example_props (rev example_props)
  /\ generateCertificateHash (JsObject example_props)
     = generateCertificateHash (JsObject (rev example_props)).
Proof.
  assert (Hnd : NoDup (map fst example_props)).
  { cbn. repeat constructor; simpl; intros H; decompose [or] H;
      discriminate || contradiction. }
  split; [exact Hnd |]. split; [apply Permutation_rev |].
  apply (fingerprint_independent_of_field_order example_props
           (rev example_props) Hnd (Permutation_rev example_props)).
Defined.

Lemma fingerprint_depends_on_five_fields_only_witness :
  let with_extras :=
    ("grade", JsString "A") :: example_props ++ [("notes", JsNull)] in
  generateCertificateHash (JsObject example_props)
  = generateCertificateHash (JsObject with_extras).
Proof.
  cbv zeta.
  apply (fingerprint_depends_on_five_fields_only example_props).
  intros name H. simpl in H.
  decompose [or] H; subst; reflexivity || contradiction.
Defined.

Lemma absence_is_a_verdict_not_an_error_witness :
  exists r found resp,
    verifyCertificateOnBlockchain MemoryLedger.client example_key
      MemoryLedger.empty = (Ok r, MemoryLedger.empty)
    /\ verify_success r = true /\ verify_verified r = false
    /\ GET_verify MemoryLedger.client (Some "CERT-2025-ABC123")
         MemoryLedger.empty = (Ok found, MemoryLedger.empty)
    /\ status found = 200
    /\ data_field found "verified" = JsBool false
    /\ POST_verify MemoryLedger.client (Ok example_request) MemoryLedger.empty
       = (Ok resp, MemoryLedger.empty)
    /\ status resp = 200
    /\ verdict_of resp = Some NotAnchored.
Proof.
  destruct (absence_is_a_verdict_not_an_error MemoryLedger.client
              example_key MemoryLedger.empty)
    as (r & Hr & _ & Hzero & Hget & Hpost).
  destruct (Hget "CERT-2025-ABC123" eq_refl ltac:(discriminate))
    as (found & Hf & _ & Hfz).
  destruct (Hpost example_request example_record
              example_request_well_formed)
    as (resp & Hp & _ & Hpz).
  destruct (Hfz 0 MemoryLedger.zero_address eq_refl) as (F1 & _ & F2 & _).
  destruct (Hpz 0 MemoryLedger.zero_address eq_refl) as (P1 & _ & P2).
  exists r, found, resp.
  rewrite (Hzero 0 MemoryLedger.zero_address eq_refl) in *.
  repeat split; assumption.
Defined.

Lemma not_anchored_response_is_minimal_witness :
  exists resp,
    POST_verify MemoryLedger.client (Ok example_request) MemoryLedger.empty
    = (Ok resp, MemoryLedger.empty)
    /\ response_data resp
       = JsObject [ ("verified", JsBool false); ("hashMatch", JsBool false) ]
    /\ POST_verify MemoryLedger.client (Ok tampered_request) MemoryLedger.empty
       = (Ok resp, MemoryLedger.empty).
Proof.
  destruct (not_anchored_response_is_minimal MemoryLedger.client
              example_request example_key example_record MemoryLedger.empty
              0 MemoryLedger.zero_address
              example_request_well_formed eq_refl)
    as (resp & Hp & Hd & _ & _ & _ & _ & Hind).
  exists resp. split; [exact Hp |]. split; [exact Hd |].
  apply (Hind tampered_request tampered_record). repeat split.
Defined.

Lemma anchor_then_verify_matches_witness :
  exists timestamp issuer verdict,
    POST_verify MemoryLedger.client (Ok example_request)
      example_anchored_state
    = (Ok verdict, example_anchored_state)
    /\ verdict_of verdict = Some AnchoredAndMatches
    /\ data_field verdict "localHash" = JsString example_fingerprint
    /\ data_field verdict "blockchainHash" = JsString example_fingerprint
    /\ data_field verdict "timestamp" = JsNumber timestamp
    /\ data_field verdict "issuer" = JsString issuer.
Proof.
  destruct (anchor_then_verify_matches MemoryLedger.client
              example_request example_request example_key example_props
              MemoryLedger.empty example_anchored_state
              example_store_response)
    as (h & ts & iss & verdict & Hh & Hv & _ & _ & Hm & _ & _ & Hl & Hb
        & Hts & Hiss).
  - exact MemoryLedger_store_then_query.
  - reflexivity.
  - reflexivity.
  - vm_compute. reflexivity.
  - reflexivity.
  - vm_compute. discriminate.
  - assert (h = example_fingerprint).
    { apply (f_equal (fun o => match o with Ok a => a | Throw _ => "" end))
        in Hh.
      rewrite <- Hh. vm_compute. reflexivity. }
    subst h. exists ts, iss, verdict. auto 10.
Defined.

(** A ledger that refuses every write for lack of funds, and a node that
    cannot be reached. *)
Lemma store_validation_and_failures_witness :
  let ledger :=
    fixed_client (Throw {| message := "insufficient funds for gas" |})
      (Ok (ZeroHash, 0, MemoryLedger.zero_address)) (Ok "sepolia") (Ok 1) in
  exists resp,
    POST_store ledger (Ok example_request) tt = (Ok resp, tt)
    /\ status resp = 500
    /\ response_field resp "message" = JsString "insufficient funds for gas".
Proof.
  cbv zeta.
  destruct (store_validation_and_failures
              (fixed_client (Throw {| message := "insufficient funds for gas" |})
                 (Ok (ZeroHash, 0, MemoryLedger.zero_address))
                 (Ok "sepolia") (Ok 1))
              (Ok example_request) tt)
    as (resp & s' & Hrun & _ & _ & Hfail).
  destruct (Hfail example_request example_key example_record eq_refl
              example_request_well_formed)
    as (h & _ & _ & Hm).
  cbn in Hm. destruct Hm as (H500 & _ & _ & Hmsg).
  destruct s'. exists resp.
  split; [exact Hrun |]. split; [exact H500 |].
  apply Hmsg. discriminate.
Defined.

Lemma checkBlockchainConnection_never_throws_witness :
  let node :=
    fixed_client (Throw {| message := "read-only" |})
      (Ok (ZeroHash, 0, MemoryLedger.zero_address))
      (Throw {| message := "connect ECONNREFUSED 127.0.0.1:8545" |}) (Ok 1) in
  exists r,
    checkBlockchainConnection node tt = (Ok r, tt)
    /\ connected r = false
    /\ connection_error r = Some "connect ECONNREFUSED 127.0.0.1:8545".
Proof.
  cbv zeta.
  destruct (checkBlockchainConnection_never_throws
              (fixed_client (Throw {| message := "read-only" |})
                 (Ok (ZeroHash, 0, MemoryLedger.zero_address))
                 (Throw {| message := "connect ECONNREFUSED 127.0.0.1:8545" |})
                 (Ok 1)) tt)
    as (r & Hrun & Hcase).
  cbn in Hcase.
  destruct Hcase as (Hc & _ & _ & description & Hd & _ & Hmsg).
  exists r. split; [exact Hrun |]. split; [exact Hc |].
  rewrite Hd. f_equal. apply Hmsg. discriminate.
Defined.

Example status_route_reports_a_failed_probe :
  let node :=
    fixed_client (Throw {| message := "read-only" |})
      (Ok (ZeroHash, 0, MemoryLedger.zero_address))
      (Ok "sepolia") (Throw {| message := "" |}) in
  exists resp,
    GET_status node tt = (Ok resp, tt)
    /\ status resp = 200
    /\ response_field resp "success" = JsBool false
    /\ data_field resp "error" = JsString "Failed to connect to blockchain".
Proof. eexists. split; [vm_compute; reflexivity |]. repeat split. Qed.

(* ================================================================= *)
(** * The rest of the library and of the routes *)

(** ** [storeCertificateOnBlockchain] *)

Lemma prefix_0x_append (h : string) : String.prefix "0x" ("0x" ++ h) = true.
Proof. cbn. now destruct h. Qed.

(** X1. [storeCertificateOnBlockchain] never throws.  It reports success
    exactly when the ledger write was sent and confirmed, and then carries the
    receipt's hash and no error; every failure carries a non-empty error text
    and no transaction hash. *)
Theorem storeCertificateOnBlockchain_never_throws
  (E : Ethers) (k : JsValue) (certificateHash : string) (s : St E) :
  exists r,
    storeCertificateOnBlockchain E k certificateHash s
    = (Ok r, snd (ledger_submit E k (normalize_hash certificateHash) s))
    /\ (store_success r = true <->
        exists tx,
          fst (ledger_submit E k (normalize_hash certificateHash) s) = Ok tx)
    /\ (forall tx,
          fst (ledger_submit E k (normalize_hash certificateHash) s) = Ok tx ->
          store_transactionHash r = Some tx /\ store_error r = None)
    /\ (store_success r = false ->
        store_transactionHash r = None
        /\ exists text, store_error r = Some text /\ text <> "").
Proof.
  rewrite storeCertificateOnBlockchain_run.
  eexists. split; [reflexivity |].
  destruct (fst (ledger_submit E k (normalize_hash certificateHash) s))
    as [tx | e].
  - split; [| split].
    + split; [eauto | reflexivity].
    + intros tx' H.
      apply (f_equal (fun o => match o with Ok a => a | Throw _ => "" end))
        in H.
      cbn in H. subst tx'. split; reflexivity.
    + discriminate.
  - split; [| split].
    + split; [discriminate | intros [tx H]; discriminate].
    + discriminate.
    + intros _. split; [reflexivity |].
      eexists. split; [reflexivity |]. now apply or_string_nonempty.
Qed.

(** X2. The [0x] prefix of the hash is optional: a hash given without it is
    stored exactly as the same hash with the prefix is. *)
Theorem store_hash_prefix_is_optional
  (E : Ethers) (k : JsValue) (digits : string) (s : St E) :
  String.prefix "0x" digits = false ->
  storeCertificateOnBlockchain E k digits s
  = storeCertificateOnBlockchain E k ("0x" ++ digits) s.
Proof.
  intros Hp.
  rewrite !storeCertificateOnBlockchain_run.
  unfold normalize_hash. rewrite Hp, prefix_0x_append. reflexivity.
Qed.

Lemma store_hash_prefix_is_optional_witness :
  let digits :=
    "032a75a8cd0e9bea7aecc780dd71348829b01f97e78d3d47a9683edfe581276e" in
  storeCertificateOnBlockchain MemoryLedger.client example_key digits
    MemoryLedger.empty
  = storeCertificateOnBlockchain MemoryLedger.client example_key
      example_fingerprint MemoryLedger.empty.
Proof.
  cbv zeta.
  apply (store_hash_prefix_is_optional MemoryLedger.client example_key
           "032a75a8cd0e9bea7aecc780dd71348829b01f97e78d3d47a9683edfe581276e"
           MemoryLedger.empty).
  reflexivity.
Defined.

(** ** [getCertificateHashFromBlockchain] and [verifyCertificateOnBlockchain] *)

Lemma getCertificateHashFromBlockchain_run
  (E : Ethers) (k : JsValue) (s : St E) :
  getCertificateHashFromBlockchain E k s =
  (Ok match fst (ledger_hash_query E k s) with
      | Ok hash =>
          {| hash_success := true;
             hash_hash := if negb (hash =? ZeroHash)%string
                          then Some hash else None;
             hash_error := None |}
      | Throw error =>
          {| hash_success := false;
             hash_hash := None;
             hash_error :=
               Some (or_string (message error)
                       "Failed to retrieve certificate hash from blockchain") |}
      end, s).
Proof.
  cbv beta iota delta
    [ getCertificateHashFromBlockchain ledger_hash_query
      getProvider getCertificateContract bind ret lift view try_catch ].
  destruct (new_JsonRpcProvider E) as [p | e]; [| reflexivity].
  destruct (new_Contract E (inr p)) as [c | e]; [| reflexivity].
  destruct (contract_getCertificateHash E c k s) as [h | e]; reflexivity.
Qed.

(** X3. [getCertificateHashFromBlockchain] never throws and leaves the ledger
    as it is.  It fails exactly when the ledger read throws; the hash it
    returns is the one the ledger holds and is never the all-zero hash, which
    is reported as a successful result without a hash. *)
Theorem getCertificateHashFromBlockchain_hides_the_zero_hash
  (E : Ethers) (k : JsValue) (s : St E) :
  exists r,
    getCertificateHashFromBlockchain E k s = (Ok r, s)
    /\ (hash_success r = false <->
        exists error, fst (ledger_hash_query E k s) = Throw error)
    /\ (forall h,
          hash_hash r = Some h <->
          fst (ledger_hash_query E k s) = Ok h /\ h <> ZeroHash)
    /\ (fst (ledger_hash_query E k s) = Ok ZeroHash ->
        hash_success r = true /\ hash_hash r = None /\ hash_error r = None)
    /\ (hash_success r = false ->
        exists text, hash_error r = Some text /\ text <> "").
Proof.
  rewrite getCertificateHashFromBlockchain_run.
  eexists. split; [reflexivity |].
  destruct (fst (ledger_hash_query E k s)) as [h0 | e].
  - split; [| split; [| split]].
    + split; [discriminate | intros [e H]; discriminate].
    + intros h. cbn [hash_hash].
      destruct (String.eqb_spec h0 ZeroHash) as [Hz | Hz]; cbn [negb].
      * split; [discriminate |]. intros [[= ->] Hne]. contradiction.
      * split.
        -- intros [= ->]. split; [reflexivity | exact Hz].
        -- intros [[= ->] _]. reflexivity.
    + intros [= ->]. repeat split.
    + discriminate.
  - split; [| split; [| split]].
    + split; [eauto | reflexivity].
    + intros h. split; [discriminate | intros [H _]; discriminate].
    + discriminate.
    + intros _. eexists. split; [reflexivity |].
      now apply or_string_nonempty.
Qed.

(** Below 2^53 a BigInt and its [Number] are the same integer. *)
Lemma Number_of_bigint_exact (z : Z) :
  Z.abs z < 2 ^ 53 -> Number_of_bigint z = z.
Proof.
  intros Hz. unfold Number_of_bigint.
  destruct (Z.leb_spec (Z.log2 (Z.abs z) + 1 - 53) 0) as [_ | Hbig];
    [reflexivity | exfalso].
  assert (Hpos : 0 < Z.abs z).
  { destruct (Z.eq_dec (Z.abs z) 0) as [H0 | H0]; [| lia].
    rewrite H0 in Hbig. cbn in Hbig. lia. }
  pose proof (Z.log2_spec _ Hpos) as [Hlow _].
  assert (2 ^ 53 <= 2 ^ Z.log2 (Z.abs z))
    by (apply Z.pow_le_mono_r; lia).
  lia.
Qed.

(** X4. In every result of [verifyCertificateOnBlockchain] the stored hash,
    the timestamp and the issuer are present together, exactly when
    [verified] is true; a verified result is a success, its hash is the
    ledger's and is never the all-zero hash, its timestamp is [Number] of the
    ledger's, the same integer when that is below 2^53; a failure carries a
    non-empty error text. *)
Theorem verifyCertificateOnBlockchain_result_shape
  (E : Ethers) (k : JsValue) (s : St E) :
  exists r,
    verifyCertificateOnBlockchain E k s = (Ok r, s)
    /\ (verify_verified r = true <-> verify_blockchainHash r <> None)
    /\ (verify_verified r = true <-> verify_timestamp r <> None)
    /\ (verify_verified r = true <-> verify_issuer r <> None)
    /\ (verify_verified r = true -> verify_success r = true)
    /\ (forall h,
          verify_blockchainHash r = Some h ->
          h <> ZeroHash
          /\ exists timestamp issuer,
               fst (ledger_query E k s) = Ok (h, timestamp, issuer)
               /\ verify_timestamp r = Some (Number_of_bigint timestamp)
               /\ (Z.abs timestamp < 2 ^ 53 ->
                   verify_timestamp r = Some timestamp)
               /\ verify_issuer r = Some issuer)
    /\ (verify_success r = false <-> verify_error r <> None)
    /\ (forall text, verify_error r = Some text -> text <> "").
Proof.
  rewrite verifyCertificateOnBlockchain_run.
  eexists. split; [reflexivity |].
  destruct (fst (ledger_query E k s)) as [[[h0 ts] iss] | e];
    cbn [verify_verified verify_blockchainHash verify_timestamp verify_issuer
           verify_success verify_error];
    [destruct (String.eqb_spec h0 ZeroHash) as [Hz | Hz]; cbn [negb] |];
    repeat match goal with
           | |- _ /\ _ => split
           | |- _ <-> _ => split
           end; intros; try discriminate; try congruence; try reflexivity.
  - match goal with H : Some _ = Some _ |- _ => injection H as <- end.
    split; [exact Hz |]. exists ts, iss.
    split; [reflexivity |]. split; [reflexivity |].
    split; [| reflexivity].
    intros Hsmall. now rewrite Number_of_bigint_exact.
  - match goal with H : Some _ = Some _ |- _ => injection H as <- end.
    now apply or_string_nonempty.
Qed.

(** ** [GET /api/blockchain/status] *)

(** X5. The status route never throws and always answers with status 200,
    also when the node cannot be reached: the failure shows in
    [success = false] and in [data.connected = false] with a non-empty
    [data.error], and then no network name or block number is given. *)
Theorem GET_status_always_answers_200 (E : Ethers) (s : St E) :
  exists resp,
    GET_status E s = (Ok resp, s)
    /\ status resp = 200
    /\ response_field resp "success" = data_field resp "connected"
    /\ match fst (ledger_probe E s) with
       | Ok (network_name, height) =>
           response_field resp "success" = JsBool true
           /\ data_field resp "network" = JsString network_name
           /\ data_field resp "blockNumber" = JsNumber height
           /\ data_field resp "error" = JsUndefined
       | Throw error =>
           response_field resp "success" = JsBool false
           /\ response_field resp "message"
              = JsString "Blockchain connection failed"
           /\ data_field resp "network" = JsUndefined
           /\ data_field resp "blockNumber" = JsUndefined
           /\ exists text,
                data_field resp "error" = JsString text /\ text <> ""
                /\ (message error <> "" -> text = message error)
       end.
Proof.
  cbv beta iota delta [GET_status bind ret try_catch].
  rewrite checkBlockchainConnection_run.
  eexists. split; [reflexivity |].
  destruct (fst (ledger_probe E s)) as [[n h] | e].
  - repeat split.
  - repeat split.
    eexists. split; [reflexivity |]. split.
    + now apply or_string_nonempty.
    + intros Hm. unfold or_string.
      destruct (String.eqb_spec (message e) ""); congruence.
Qed.

(** ** [POST /api/blockchain/verify] and [GET /api/blockchain/verify] *)

(** The three ways a match verification can go. *)
Lemma POST_verify_cases (E : Ethers) (rq : Outcome JsValue) (s : St E) :
  (exists error,
      (rq = Throw error
       \/ exists b, rq = Ok b /\ destructure_body b = Throw error)
      /\ POST_verify E rq s = (Ok (internal_error error), s))
  \/ (exists b K D,
         rq = Ok b /\ destructure_body b = Ok (K, D)
         /\ (truthy K = false \/ truthy D = false)
         /\ POST_verify E rq s
            = (Ok (error_response "Certificate number and data are required"
                     400), s))
  \/ (exists b K D localHash,
         rq = Ok b /\ well_formed_request b K D
         /\ generateCertificateHash D = Ok localHash
         /\ POST_verify E rq s
            = (Ok match fst (ledger_query E K s) with
                  | Throw error =>
                      error_response
                        (or_string (message error)
                           "Failed to verify certificate on blockchain") 500
                  | Ok (hash, timestamp, issuer) =>
                      if (hash =? ZeroHash)%string then not_found_response
                      else compared_response localHash hash
                             (Number_of_bigint timestamp) issuer
                  end, s)).
Proof.
  destruct rq as [b | e].
  2:{ left. exists e. split; [now left | reflexivity]. }
  destruct (destructure_body b) as [[K D] | e] eqn:Hb.
  2:{ left. exists e. split; [right; eauto |].
      cbv beta iota delta [POST_verify bind ret lift try_catch].
      now rewrite Hb. }
  destruct (truthy K) eqn:HK; [destruct (truthy D) eqn:HD |].
  - right. right.
    destruct (generateCertificateHash_truthy D HD) as (lh & Hlh & _).
    assert (Hwf : well_formed_request b K D) by (repeat split; assumption).
    exists b, K, D, lh. repeat split; try assumption.
    apply (POST_verify_run E b K D lh s Hwf Hlh).
  - right. left. exists b, K, D. repeat split; auto.
    cbv beta iota delta [POST_verify bind ret lift try_catch].
    now rewrite Hb, HK, HD.
  - right. left. exists b, K, D. repeat split; auto.
    cbv beta iota delta [POST_verify bind ret lift try_catch].
    now rewrite Hb, HK.
Qed.

(** X6. The match verification never throws and never changes the ledger.
    It answers 400 exactly when the certificate number or the certificate
    data of the body is missing or falsy, 200 exactly when the request passes
    that check and the ledger read returns, and 500 otherwise; [success] is
    true exactly on a 200. *)
Theorem POST_verify_statuses (E : Ethers) (rq : Outcome JsValue) (s : St E) :
  exists resp,
    POST_verify E rq s = (Ok resp, s)
    /\ (status resp = 200 \/ status resp = 400 \/ status resp = 500)
    /\ (status resp = 400 <->
        exists b K D,
          rq = Ok b /\ destructure_body b = Ok (K, D)
          /\ (truthy K = false \/ truthy D = false))
    /\ (status resp = 200 <->
        exists b K D reply,
          rq = Ok b /\ well_formed_request b K D
          /\ fst (ledger_query E K s) = Ok reply)
    /\ (status resp = 200 <-> response_field resp "success" = JsBool true).
Proof.
  destruct (POST_verify_cases E rq s)
    as [(e & Hrq & ->) | [(b & K & D & -> & Hb & Hf & ->)
                         | (b & K & D & lh & -> & Hwf & Hlh & ->)]].
  - eexists. split; [reflexivity |].
    split; [now right; right |].
    split; [| split].
    + split; [discriminate |].
      intros (b & K & D & -> & Hb & _).
      destruct Hrq as [[=] | (b' & [= <-] & Hb')]. congruence.
    + split; [discriminate |].
      intros (b & K & D & reply & -> & (Hb & _) & _).
      destruct Hrq as [[=] | (b' & [= <-] & Hb')]. congruence.
    + split; discriminate.
  - eexists. split; [reflexivity |].
    split; [now right; left |].
    split; [| split].
    + split; [eauto 6 | reflexivity].
    + split; [discriminate |].
      intros (b' & K' & D' & reply & [= <-] & (Hb' & HK' & HD') & _).
      rewrite Hb in Hb'. injection Hb' as <- <-.
      destruct Hf; congruence.
    + split; discriminate.
  - eexists. split; [reflexivity |].
    destruct Hwf as (Hb & HK & HD).
    destruct (fst (ledger_query E K s)) as [[[h ts] iss] | e] eqn:Hq.
    + assert (H200 : status (if (h =? ZeroHash)%string then not_found_response
                             else compared_response lh h
                                    (Number_of_bigint ts) iss) = 200)
        by (destruct (h =? ZeroHash)%string; reflexivity).
      assert (Hsucc : response_field
                        (if (h =? ZeroHash)%string then not_found_response
                         else compared_response lh h (Number_of_bigint ts)
                                iss) "success"
                      = JsBool true)
        by (destruct (h =? ZeroHash)%string; reflexivity).
      split; [now left |].
      split; [| split].
      * split; [rewrite H200; discriminate |].
        intros (b' & K' & D' & [= <-] & Hb' & Hf).
        rewrite Hb in Hb'. injection Hb' as <- <-. destruct Hf; congruence.
      * split; [| intros _; exact H200].
        intros _. exists b, K, D, (h, ts, iss). repeat split; assumption.
      * split; [intros _; exact Hsucc | intros _; exact H200].
    + split; [now right; right |].
      split; [| split].
      * split; [discriminate |].
        intros (b' & K' & D' & [= <-] & Hb' & Hf).
        rewrite Hb in Hb'. injection Hb' as <- <-. destruct Hf; congruence.
      * split; [discriminate |].
        intros (b' & K' & D' & reply & [= <-] & (Hb' & _) & Hr).
        rewrite Hb in Hb'. injection Hb' as <- <-. congruence.
      * split; discriminate.
Qed.

(** X7. Every 200 answer of the match verification carries one of the three
    verdicts and every other answer carries none.  A hash match is only ever
    reported for an anchored certificate, with equal local and ledger hashes
    in the answer; the local hash reported is the hash of the submitted
    data. *)
Theorem POST_verify_verdicts (E : Ethers) (rq : Outcome JsValue) (s : St E) :
  exists resp,
    POST_verify E rq s = (Ok resp, s)
    /\ (status resp = 200 -> exists v, verdict_of resp = Some v)
    /\ (status resp <> 200 -> verdict_of resp = None)
    /\ (data_field resp "hashMatch" = JsBool true ->
        data_field resp "verified" = JsBool true
        /\ data_field resp "localHash" = data_field resp "blockchainHash")
    /\ (forall localHash,
          data_field resp "localHash" = JsString localHash ->
          exists b K D,
            rq = Ok b /\ destructure_body b = Ok (K, D)
            /\ generateCertificateHash D = Ok localHash).
Proof.
  destruct (POST_verify_cases E rq s)
    as [(e & Hrq & ->) | [(b & K & D & -> & Hb & Hf & ->)
                         | (b & K & D & lh & -> & Hwf & Hlh & ->)]].
  - eexists. split; [reflexivity |].
    repeat split; try discriminate; reflexivity.
  - eexists. split; [reflexivity |].
    repeat split; try discriminate; reflexivity.
  - eexists. split; [reflexivity |].
    destruct (fst (ledger_query E K s)) as [[[h ts] iss] | e].
    + destruct (h =? ZeroHash)%string.
      * split; [intros _; now exists NotAnchored |].
        split; [intros H; now contradiction H |].
        split; discriminate.
      * unfold compared_response.
        destruct (String.eqb_spec lh h) as [-> | Hne].
        -- split; [intros _; now exists AnchoredAndMatches |].
           split; [intros H; now contradiction H |].
           split; [intros _; split; reflexivity |].
           intros l Hl. exists b, K, D.
           split; [reflexivity |]. split; [apply Hwf |].
           cbn in Hl. congruence.
        -- split; [intros _; now exists AnchoredButMismatch |].
           split; [intros H; now contradiction H |].
           split; [discriminate |].
           intros l Hl. exists b, K, D.
           split; [reflexivity |]. split; [apply Hwf |].
           cbn in Hl. congruence.
    + repeat split; try discriminate; reflexivity.
Qed.

(** X8. The existence check never throws and never changes the ledger.  It
    answers 400 exactly when the [certificateNumber] parameter is missing or
    empty; [success] is true exactly on a 200; for an anchored key the answer
    carries the ledger's hash and issuer and [Number] of the ledger's
    timestamp, the same integer when that is below 2^53. *)
Theorem GET_verify_statuses
  (E : Ethers) (query_certificateNumber : option string) (s : St E) :
  exists resp,
    GET_verify E query_certificateNumber s = (Ok resp, s)
    /\ (status resp = 400 <->
        query_certificateNumber = None \/ query_certificateNumber = Some "")
    /\ (status resp = 200 <-> response_field resp "success" = JsBool true)
    /\ (forall k hash timestamp issuer,
          query_certificateNumber = Some k -> k <> "" ->
          fst (ledger_query E (JsString k) s) = Ok (hash, timestamp, issuer) ->
          hash <> ZeroHash ->
          status resp = 200
          /\ data_field resp "verified" = JsBool true
          /\ data_field resp "blockchainHash" = JsString hash
          /\ data_field resp "timestamp"
             = JsNumber (Number_of_bigint timestamp)
          /\ (Z.abs timestamp < 2 ^ 53 ->
              data_field resp "timestamp" = JsNumber timestamp)
          /\ data_field resp "issuer" = JsString issuer).
Proof.
  destruct query_certificateNumber as [[| c k] |].
  - eexists. split; [reflexivity |].
    split; [| split].
    + split; [auto | reflexivity].
    + split; discriminate.
    + intros k h ts iss [= <-] Hk. now contradiction Hk.
  - rewrite (GET_verify_run E (String c k) s) by discriminate.
    eexists. split; [reflexivity |].
    destruct (fst (ledger_query E (JsString (String c k)) s))
      as [[[h ts] iss] | e] eqn:Hq0.
    + assert (H200 : status (if (h =? ZeroHash)%string then absent_response
                             else present_response h (Number_of_bigint ts)
                                    iss) = 200)
        by (destruct (h =? ZeroHash)%string; reflexivity).
      assert (Hsucc : response_field
                        (if (h =? ZeroHash)%string then absent_response
                         else present_response h (Number_of_bigint ts) iss)
                        "success"
                      = JsBool true)
        by (destruct (h =? ZeroHash)%string; reflexivity).
      split; [| split].
      * split; [rewrite H200; discriminate | intros [[=] | [=]]].
      * split; [intros _; exact Hsucc | intros _; exact H200].
      * intros k' h' ts' iss' [= <-] _ Hq Hz.
        rewrite Hq0 in Hq. inversion Hq; subst.
        apply String.eqb_neq in Hz. rewrite Hz.
        split; [reflexivity |]. split; [reflexivity |].
        split; [reflexivity |]. split; [reflexivity |].
        split; [| reflexivity].
        intros Hsmall. cbn. now rewrite Number_of_bigint_exact.
    + split; [| split].
      * split; [discriminate | intros [[=] | [=]]].
      * split; discriminate.
      * intros k' h' ts' iss' [= <-] _ Hq. rewrite Hq0 in Hq. discriminate.
  - eexists. split; [reflexivity |].
    split; [| split].
    + split; [auto | reflexivity].
    + split; discriminate.
    + intros k h ts iss [=].
Qed.

(** X9. The two verification routes agree.  For a well-formed match request
    on key [k], the existence check of [k] on the same ledger answers with
    the same status and the same [verified], and for an anchored key with the
    same ledger hash, timestamp and issuer. *)
Theorem verification_routes_agree
  (E : Ethers) (b D : JsValue) (k : string) (s : St E) :
  well_formed_request b (JsString k) D ->
  exists found resp,
    GET_verify E (Some k) s = (Ok found, s)
    /\ POST_verify E (Ok b) s = (Ok resp, s)
    /\ status found = status resp
    /\ data_field found "verified" = data_field resp "verified"
    /\ data_field found "blockchainHash" = data_field resp "blockchainHash"
    /\ data_field found "timestamp" = data_field resp "timestamp"
    /\ data_field found "issuer" = data_field resp "issuer".
Proof.
  intros Hwf.
  assert (Hk : k <> "").
  { destruct Hwf as (_ & HK & _). intros ->. discriminate. }
  destruct (generateCertificateHash_truthy D) as (lh & Hlh & _);
    [ apply Hwf |].
  rewrite (GET_verify_run E k s Hk),
    (POST_verify_run E b (JsString k) D lh s Hwf Hlh).
  do 2 eexists. split; [reflexivity |]. split; [reflexivity |].
  destruct (fst (ledger_query E (JsString k) s)) as [[[h ts] iss] | e].
  - destruct (h =? ZeroHash)%string; repeat split.
  - repeat split.
Qed.

Lemma verification_routes_agree_witness :
  exists found resp,
    GET_verify MemoryLedger.client (Some "CERT-2025-ABC123")
      example_anchored_state = (Ok found, example_anchored_state)
    /\ POST_verify MemoryLedger.client (Ok tampered_request)
         example_anchored_state = (Ok resp, example_anchored_state)
    /\ data_field found "blockchainHash" = data_field resp "blockchainHash".
Proof.
  destruct (verification_routes_agree MemoryLedger.client tampered_request
              tampered_record "CERT-2025-ABC123" example_anchored_state)
    as (found & resp & Hf & Hp & _ & _ & Hh & _).
  - repeat split.
  - exists found, resp. auto.
Defined.

(** ** Bodies that cannot be read *)

(** X10. A request whose body is not JSON, or is [null], is not answered as
    invalid input: both [POST] routes answer 500 with the message of the
    runtime error and do not touch the ledger. *)
Theorem unreadable_body_is_a_500
  (E : Ethers) (rq : Outcome JsValue) (s : St E) (error : JsError) :
  rq = Throw error
  \/ (rq = Ok JsNull /\ error = TypeError_destructure "null") ->
  POST_store E rq s = (Ok (internal_error error), s)
  /\ POST_verify E rq s = (Ok (internal_error error), s)
  /\ status (internal_error error) = 500
  /\ response_field (internal_error error) "success" = JsBool false
  /\ (message error <> "" ->
      response_field (internal_error error) "message"
      = JsString (message error)).
Proof.
  intros [-> | [-> ->]]; repeat split;
    try (intros Hm; cbn; unfold or_string;
         destruct (String.eqb_spec (message error) ""); congruence).
Qed.

Lemma unreadable_body_is_a_500_witness :
  let error := {| message := "Unexpected end of JSON input" |} in
  POST_store MemoryLedger.client (Throw error) MemoryLedger.empty
  = (Ok (internal_error error), MemoryLedger.empty)
  /\ response_field (internal_error error) "message"
     = JsString "Unexpected end of JSON input".
Proof.
  cbv zeta.
  destruct (unreadable_body_is_a_500 MemoryLedger.client
              (Throw {| message := "Unexpected end of JSON input" |})
              MemoryLedger.empty
              {| message := "Unexpected end of JSON input" |})
    as (Hs & _ & _ & _ & Hm).
  - now left.
  - split; [exact Hs |]. apply Hm. discriminate.
Defined.

(** ** [generateCertificateHash] at its edges *)

(** X11. [generateCertificateHash] throws exactly on [null] and [undefined].
    Every other input that has none of the five fields, be it an empty
    object, an object with other properties only, an array, a string, a
    number or a boolean, gets one and the same fingerprint: the hash of the
    text of the empty object. *)
Theorem generateCertificateHash_without_fields (D : JsValue) :
  ((exists error, generateCertificateHash D = Throw error) <->
   D = JsNull \/ D = JsUndefined)
  /\ (D <> JsNull -> D <> JsUndefined ->
      (forall name, In name record_fields ->
                    lookup name (properties_of D) = JsUndefined) ->
      generateCertificateHash D
      = Ok (keccak256 (toUtf8Bytes (String "{" (String "}" "")))))
  /\ (forall elems flag z text,
        D = JsArray elems \/ D = JsBool flag \/ D = JsNumber z
        \/ D = JsString text ->
        generateCertificateHash D = generateCertificateHash (JsObject [])).
Proof.
  split; [| split].
  - split.
    + intros [e He].
      destruct D as [| | flag | z | str | elems | props]; auto;
        exfalso; revert He;
        cbv beta iota delta [generateCertificateHash get_property bind_outcome];
        discriminate.
    + intros [-> | ->]; eexists; reflexivity.
  - intros Hn Hu Hmiss.
    assert (Hobj : generateCertificateHash D
                   = generateCertificateHash (JsObject (properties_of D))).
    { destruct D; try reflexivity; congruence. }
    rewrite Hobj, generateCertificateHash_object.
    do 3 f_equal.
    unfold record_fields. cbn [map].
    rewrite !Hmiss by (simpl; auto 10).
    reflexivity.
  - intros elems flag z text [-> | [-> | [-> | ->]]]; reflexivity.
Qed.

Lemma toUtf8Bytes_inj (t t' : string) :
  toUtf8Bytes t = toUtf8Bytes t' -> t = t'.
Proof.
  unfold toUtf8Bytes. intros Heq.
  rewrite <- (string_of_list_ascii_of_string t),
    <- (string_of_list_ascii_of_string t').
  f_equal. revert Heq.
  generalize (list_ascii_of_string t), (list_ascii_of_string t').
  intros l1. induction l1 as [| x l1 IH]; intros [| y l2] H;
    try discriminate; [reflexivity |].
  cbn [map] in H. injection H as Hxy Hl.
  f_equal; [| now apply IH].
  apply N2Z.inj in Hxy.
  rewrite <- (ascii_N_embedding x), <- (ascii_N_embedding y).
  now rewrite Hxy.
Qed.

(** X12. The text that is hashed identifies the record: two records of four
    strings and an integer are hashed from the same text exactly when they
    agree on all five fields.  Quoting, commas and the fixed order of the
    keys leave no two records with one text. *)
Theorem canonical_text_identifies_the_record
  (a b c d a' b' c' d' : string) (n n' : Z) :
  generateCertificateHash (certificate_record a b c d n)
  = Ok (keccak256 (toUtf8Bytes (canonical_json a b c d n)))
  /\ (toUtf8Bytes (canonical_json a b c d n)
      = toUtf8Bytes (canonical_json a' b' c' d' n')
      <-> certificate_record a b c d n = certificate_record a' b' c' d' n')
  /\ (canonical_json a b c d n = canonical_json a' b' c' d' n'
      <-> a = a' /\ b = b' /\ c = c' /\ d = d' /\ n = n').
Proof.
  split; [reflexivity |]. split.
  - split.
    + intros Heq. apply toUtf8Bytes_inj, canonical_json_inj in Heq.
      destruct Heq as (-> & -> & -> & -> & ->). reflexivity.
    + intros H. injection H as -> -> -> -> ->. reflexivity.
  - split; [apply canonical_json_inj |].
    intros (-> & -> & -> & -> & ->). reflexivity.
Qed.

(** ** Clients that cannot be built *)

(** X13. When the provider cannot be built (a bad RPC setting), no library
    function throws: the write, both reads and the health check each return
    a failure that carries the message of that error, and the ledger is not
    touched. *)
Theorem provider_failure_is_reported
  (E : Ethers) (error : JsError) (k : JsValue) (h : string) (s : St E) :
  new_JsonRpcProvider E = Throw error ->
  message error <> "" ->
  storeCertificateOnBlockchain E k h s
  = (Ok {| store_success := false;
           store_transactionHash := None;
           store_error := Some (message error) |}, s)
  /\ verifyCertificateOnBlockchain E k s
     = (Ok {| verify_success := false;
              verify_verified := false;
              verify_blockchainHash := None;
              verify_timestamp := None;
              verify_issuer := None;
              verify_error := Some (message error) |}, s)
  /\ getCertificateHashFromBlockchain E k s
     = (Ok {| hash_success := false;
              hash_hash := None;
              hash_error := Some (message error) |}, s)
  /\ checkBlockchainConnection E s
     = (Ok {| connected := false;
              network := None;
              blockNumber := None;
              connection_error := Some (message error) |}, s).
Proof.
  intros Hp Hm.
  assert (Hor : forall fallback, or_string (message error) fallback
                                 = message error).
  { intros fallback. unfold or_string.
    destruct (String.eqb_spec (message error) ""); congruence. }
  repeat split;
    cbv beta iota delta
      [ storeCertificateOnBlockchain verifyCertificateOnBlockchain
        getCertificateHashFromBlockchain checkBlockchainConnection
        getSigner getProvider getCertificateContract
        bind ret lift view try_catch ];
    rewrite Hp, Hor; reflexivity.
Qed.

Lemma provider_failure_is_reported_witness :
  let node :=
    faulty_client (Throw {| message := "could not detect network" |}) (Ok tt) in
  checkBlockchainConnection node 0%nat
  = (Ok {| connected := false;
           network := None;
           blockNumber := None;
           connection_error := Some "could not detect network" |}, 0%nat).
Proof.
  cbv zeta.
  apply (provider_failure_is_reported
           (faulty_client (Throw {| message := "could not detect network" |})
              (Ok tt))
           {| message := "could not detect network" |}
           example_key example_fingerprint 0%nat).
  - reflexivity.
  - discriminate.
Defined.

(** X14. When the wallet cannot be built (a missing or malformed private
    key), a store request that passes the route's check sends no
    transaction: the ledger stays as it was and the answer is a 500 with the
    message of that error.  Reading needs no wallet. *)
Theorem wallet_failure_blocks_writes_only
  (E : Ethers) (p : Provider E) (error : JsError)
  (b K D : JsValue) (s : St E) :
  new_JsonRpcProvider E = Ok p ->
  new_Wallet E p = Throw error ->
  message error <> "" ->
  well_formed_request b K D ->
  POST_store E (Ok b) s
  = (Ok (error_response (message error) 500), s)
  /\ (forall contract reply,
        new_Contract E (inr p) = Ok contract ->
        contract_verifyCertificate E contract K s = Ok reply ->
        exists r,
          verifyCertificateOnBlockchain E K s = (Ok r, s)
          /\ verify_success r = true).
Proof.
  intros Hp Hw Hm Hwf.
  destruct (generateCertificateHash_truthy D) as (h & Hh & H32);
    [ apply Hwf |].
  rewrite (POST_store_run E b K D h s Hwf Hh H32).
  assert (Hsub : ledger_submit E K h s = (Throw error, s)).
  { cbv beta iota delta [ledger_submit getSigner getProvider bind ret lift].
    now rewrite Hp, Hw. }
  rewrite Hsub. cbn [fst snd].
  split.
  - unfold or_string.
    destruct (String.eqb_spec (message error) ""); [congruence | reflexivity].
  - intros contract [[hash timestamp] issuer] Hc Hq.
    rewrite verifyCertificateOnBlockchain_run.
    assert (Hquery : fst (ledger_query E K s) = Ok (hash, timestamp, issuer)).
    { cbv beta iota delta
        [ledger_query getProvider getCertificateContract bind ret lift view].
      now rewrite Hp, Hc, Hq. }
    rewrite Hquery. eexists. split; reflexivity.
Qed.

Lemma wallet_failure_blocks_writes_only_witness :
  let keyless :=
    faulty_client (Ok tt) (Throw {| message := "invalid private key" |}) in
  POST_store keyless (Ok example_request) 0%nat
  = (Ok (error_response "invalid private key" 500), 0%nat).
Proof.
  cbv zeta.
  apply (wallet_failure_blocks_writes_only
           (faulty_client (Ok tt)
              (Throw {| message := "invalid private key" |}))
           tt {| message := "invalid private key" |}
           example_request example_key example_record 0%nat).
  - reflexivity.
  - reflexivity.
  - discriminate.
  - exact example_request_well_formed.
Defined.

(** ** [scripts/deploy-contract.ts] *)

(** X15. The deployment script never throws and changes nothing on the
    ledger.  Without a private key it exits with status 1 before any client
    is built.  It runs to its end only with a key, a provider and a wallet
    that could be built, and a balance that could be read and is not zero; in
    every other case it exits with status 1. *)
Theorem deployContract_exits
  (E : Ethers)
  (provider_getBalance : Provider E -> Wallet E -> St E -> Outcome Z)
  (BLOCKCHAIN_PRIVATE_KEY : option string) (s : St E) :
  exists t,
    deployContract E provider_getBalance BLOCKCHAIN_PRIVATE_KEY s = (Ok t, s)
    /\ (t = Returned \/ t = Exited 1)
    /\ (BLOCKCHAIN_PRIVATE_KEY = None \/ BLOCKCHAIN_PRIVATE_KEY = Some "" ->
        t = Exited 1)
    /\ (t = Returned <->
        exists key provider wallet balance,
          BLOCKCHAIN_PRIVATE_KEY = Some key /\ key <> ""
          /\ new_JsonRpcProvider E = Ok provider
          /\ new_Wallet E provider = Ok wallet
          /\ provider_getBalance provider wallet s = Ok balance
          /\ balance <> 0).
Proof.
  unfold deployContract.
  destruct BLOCKCHAIN_PRIVATE_KEY as [[| c key] |]; cbn [js_string truthy negb].
  - cbn. eexists. split; [reflexivity |]. split; [now right |].
    split; [reflexivity |].
    split; [discriminate | intros (k & _ & _ & _ & [= <-] & Hk & _); congruence].
  - cbn [String.eqb negb].
    cbv beta iota delta [bind ret lift view try_catch].
    assert (Hkey : forall k, Some (String c key) = Some k -> k <> "")
      by (intros k [= <-]; discriminate).
    destruct (new_JsonRpcProvider E) as [p | e] eqn:Hp.
    2:{ eexists. split; [reflexivity |]. split; [now right |].
        split; [intros [[=] | [=]] |].
        split; [discriminate |].
        intros (k & p' & _ & _ & _ & _ & [=] & _). }
    destruct (new_Wallet E p) as [w | e] eqn:Hw.
    2:{ eexists. split; [reflexivity |]. split; [now right |].
        split; [intros [[=] | [=]] |].
        split; [discriminate |].
        intros (k & p' & w' & _ & _ & _ & [= <-] & Hw' & _). congruence. }
    destruct (provider_getBalance p w s) as [bal | e] eqn:Hb.
    2:{ eexists. split; [reflexivity |]. split; [now right |].
        split; [intros [[=] | [=]] |].
        split; [discriminate |].
        intros (k & p' & w' & bal' & _ & _ & [= <-] & Hw' & Hb' & _).
        rewrite Hw in Hw'. injection Hw' as <-. congruence. }
    destruct (Z.eqb_spec bal 0) as [-> | Hnz].
    + eexists. split; [reflexivity |]. split; [now right |].
      split; [intros [[=] | [=]] |].
      split; [discriminate |].
      intros (k & p' & w' & bal' & _ & _ & [= <-] & Hw' & Hb' & Hnz).
      rewrite Hw in Hw'. injection Hw' as <-.
      rewrite Hb in Hb'. injection Hb' as <-. congruence.
    + eexists. split; [reflexivity |]. split; [now left |].
      split; [intros [[=] | [=]] |].
      split; [| reflexivity].
      intros _. exists (String c key), p, w, bal. repeat split; auto.
  - cbn. eexists. split; [reflexivity |]. split; [now right |].
    split; [reflexivity |].
    split; [discriminate | intros (k & _ & _ & _ & [=] & _)].
Qed.

(** ** [POST /api/blockchain/store], and reading back what was stored *)

Lemma POST_store_cases (E : Ethers) (rq : Outcome JsValue) (s : St E) :
  (exists error,
      (rq = Throw error
       \/ exists b, rq = Ok b /\ destructure_body b = Throw error)
      /\ POST_store E rq s = (Ok (internal_error error), s))
  \/ (exists b K D,
         rq = Ok b /\ destructure_body b = Ok (K, D)
         /\ (truthy K = false \/ truthy D = false)
         /\ POST_store E rq s
            = (Ok (error_response "Certificate number and data are required"
                     400), s))
  \/ (exists b K D h,
         rq = Ok b /\ well_formed_request b K D
         /\ generateCertificateHash D = Ok h
         /\ is_bytes32_hex h = true
         /\ POST_store E rq s
            = (Ok match fst (ledger_submit E K h s) with
                  | Ok receipt_hash => stored_response h receipt_hash
                  | Throw error =>
                      error_response
                        (or_string (message error)
                           "Failed to store certificate on blockchain") 500
                  end,
               snd (ledger_submit E K h s))).
Proof.
  destruct rq as [b | e].
  2:{ left. exists e. split; [now left |].
      apply POST_store_unreadable. now left. }
  destruct (destructure_body b) as [[K D] | e] eqn:Hb.
  2:{ left. exists e. split; [right; eauto |].
      apply POST_store_unreadable. right; eauto. }
  destruct (truthy K) eqn:HK; [destruct (truthy D) eqn:HD |].
  - right. right.
    destruct (generateCertificateHash_truthy D HD) as (h & Hh & H32).
    assert (Hwf : well_formed_request b K D) by (repeat split; assumption).
    exists b, K, D, h. repeat split; try assumption.
    apply (POST_store_run E b K D h s Hwf Hh H32).
  - right. left. exists b, K, D. repeat split; auto.
    apply (POST_store_rejected E b K D s Hb). now right.
  - right. left. exists b, K, D. repeat split; auto.
    apply (POST_store_rejected E b K D s Hb). now left.
Qed.

(** X16. The store route answers 200, 400 or 500, and [success] is true
    exactly on a 200.  A 200 is only ever given after the ledger write was
    sent and confirmed, and then the answer carries the very hash that was
    written, which is the hash of the submitted data, and the hash of the
    receipt. *)
Theorem POST_store_reports_what_was_written
  (E : Ethers) (rq : Outcome JsValue) (s : St E) :
  exists resp s',
    POST_store E rq s = (Ok resp, s')
    /\ (status resp = 200 \/ status resp = 400 \/ status resp = 500)
    /\ (status resp = 200 <-> response_field resp "success" = JsBool true)
    /\ (status resp = 200 <->
        exists b K D h tx,
          rq = Ok b /\ well_formed_request b K D
          /\ generateCertificateHash D = Ok h
          /\ ledger_submit E K h s = (Ok tx, s')
          /\ data_field resp "certificateHash" = JsString h
          /\ data_field resp "transactionHash" = JsString tx).
Proof.
  destruct (POST_store_cases E rq s)
    as [(e & Hrq & ->) | [(b & K & D & -> & Hb & Hf & ->)
                         | (b & K & D & h & -> & Hwf & Hh & H32 & ->)]].
  - do 2 eexists. split; [reflexivity |].
    split; [now right; right |].
    split; [split; discriminate |].
    split; [discriminate |].
    intros (b & K & D & h & tx & -> & (Hb & _) & _).
    destruct Hrq as [[=] | (b' & [= <-] & Hb')]. congruence.
  - do 2 eexists. split; [reflexivity |].
    split; [now right; left |].
    split; [split; discriminate |].
    split; [discriminate |].
    intros (b' & K' & D' & h & tx & [= <-] & (Hb' & HK' & HD') & _).
    rewrite Hb in Hb'. injection Hb' as <- <-. destruct Hf; congruence.
  - do 2 eexists. split; [reflexivity |].
    destruct (ledger_submit E K h s) as [[tx | e] s1] eqn:Hsub; cbn [fst snd].
    + split; [now left |].
      split; [split; reflexivity |].
      split; [| reflexivity].
      intros _. exists b, K, D, h, tx. repeat split; try apply Hwf; assumption.
    + split; [now right; right |].
      split; [split; discriminate |].
      split; [discriminate |].
      intros (b' & K' & D' & h' & tx & [= <-] & (Hb' & _) & Hh' & Hsub' & _).
      destruct Hwf as (Hb & _).
      rewrite Hb in Hb'. injection Hb' as <- <-.
      assert (h' = h).
      { rewrite Hh in Hh'.
        apply (f_equal (fun o => match o with Ok a => a | Throw _ => "" end))
          in Hh'. cbn in Hh'. congruence. }
      subst h'. rewrite Hsub in Hsub'. discriminate.
Qed.

(** X17. What was stored can be read back.  After a store request was
    answered 200, and unless the fingerprint is the all-zero hash, the
    existence check of the same key answers 200 with [verified = true] and
    the stored fingerprint, and [getCertificateHashFromBlockchain] returns
    that fingerprint. *)
Theorem stored_fingerprint_is_read_back
  (E : Ethers) (b D : JsValue) (k : string)
  (s s' : St E) (resp : Response) (fingerprint : string) :
  store_then_query E ->
  store_then_hash_query E ->
  destructure_body b = Ok (JsString k, D) ->
  POST_store E (Ok b) s = (Ok resp, s') ->
  status resp = 200 ->
  generateCertificateHash D = Ok fingerprint ->
  fingerprint <> ZeroHash ->
  data_field resp "certificateHash" = JsString fingerprint
  /\ (exists found,
        GET_verify E (Some k) s' = (Ok found, s')
        /\ status found = 200
        /\ data_field found "verified" = JsBool true
        /\ data_field found "blockchainHash" = JsString fingerprint)
  /\ getCertificateHashFromBlockchain E (JsString k) s'
     = (Ok {| hash_success := true;
              hash_hash := Some fingerprint;
              hash_error := None |}, s').
Proof.
  intros Hlaw Hlaw' Hb Hrun Hst Hfp Hnz.
  destruct (POST_store_success_inv E b _ D s s' resp Hb Hrun Hst)
    as (h & tx & (_ & HK & _) & Hh & H32 & Hsub & ->).
  assert (h = fingerprint).
  { rewrite Hfp in Hh.
    apply (f_equal (fun o => match o with Ok a => a | Throw _ => "" end))
      in Hh. cbn in Hh. congruence. }
  subst h.
  assert (Hk : k <> "") by (intros ->; discriminate).
  assert (Hz : (fingerprint =? ZeroHash)%string = false)
    by now apply String.eqb_neq.
  split; [reflexivity |]. split.
  - destruct (Hlaw _ _ _ _ _ H32 Hsub) as (ts & iss & Hq).
    rewrite (GET_verify_run E k s' Hk), Hq. cbn [fst]. rewrite Hz.
    eexists. split; [reflexivity |]. repeat split.
  - rewrite getCertificateHashFromBlockchain_run,
      (Hlaw' _ _ _ _ _ H32 Hsub).
    cbn [fst]. now rewrite Hz.
Qed.

Lemma MemoryLedger_store_then_hash_query :
  store_then_hash_query MemoryLedger.client.
Proof.
  intros k h s tx s' _ Hs.
  apply MemoryLedger_submit_inv in Hs.
  destruct Hs as (k0 & -> & _ & _ & ->).
  cbv beta iota delta
    [ ledger_hash_query getProvider getCertificateContract bind ret lift view
      MemoryLedger.client new_JsonRpcProvider new_Contract
      contract_getCertificateHash MemoryLedger.verifyCertificate
      MemoryLedger.entries ].
  now rewrite MemoryLedger_find_head.
Qed.

Lemma stored_fingerprint_is_read_back_witness :
  getCertificateHashFromBlockchain MemoryLedger.client example_key
    example_anchored_state
  = (Ok {| hash_success := true;
           hash_hash := Some example_fingerprint;
           hash_error := None |}, example_anchored_state).
Proof.
  apply (stored_fingerprint_is_read_back MemoryLedger.client
           example_request example_record "CERT-2025-ABC123"
           MemoryLedger.empty example_anchored_state
           example_store_response example_fingerprint).
  - exact MemoryLedger_store_then_query.
  - exact MemoryLedger_store_then_hash_query.
  - reflexivity.
  - vm_compute. reflexivity.
  - reflexivity.
  - vm_compute. reflexivity.
  - vm_compute. discriminate.
Defined.

Example deployContract_needs_a_funded_account :
  deployContract MemoryLedger.client
    (fun _ _ s => Ok (MemoryLedger.height s)) (Some "0xabc")
    MemoryLedger.empty
  = (Ok (Exited 1), MemoryLedger.empty)
  /\ deployContract MemoryLedger.client
       (fun _ _ _ => Ok 1000000000000000000) (Some "0xabc")
       MemoryLedger.empty
     = (Ok Returned, MemoryLedger.empty).
Proof. split; reflexivity. Qed.

(* ================================================================= *)
(** * Tamper detection and the comparison of hashes *)

Lemma Ok_inj {A : Type} (x y : A) : Ok x = Ok y -> x = y.
Proof.
  intros H.
  exact (f_equal (fun o => match o with Ok a => a | Throw _ => x end) H).
Qed.






(** C3, as the program has it.  Records are those of the data model: four
    string fields and an integer entity id.  After record R was anchored
    under key K by a store request that succeeded, with a fingerprint that is
    not the all-zero hash of an absent record, a match verification of K and
    a record R' that differs from R in at least one of the five fields is
    answered with status 200, and the two records are hashed from different
    texts.  The verdict is anchored-but-mismatch, with R's fingerprint as the
    ledger hash and the fingerprint of R' as the local one; the only other
    outcome is that Keccak-256 gives the two different texts the same digest,
    and then the verdict is anchored-and-matches. *)
Theorem tampered_record_is_a_mismatch
  (E : Ethers) (rq rq' K : JsValue)
  (a b c d a' b' c' d' : string) (n n' : Z)
  (s s' : St E) (resp : Response) :
  store_then_query E ->
  destructure_body rq = Ok (K, certificate_record a b c d n) ->
  POST_store E (Ok rq) s = (Ok resp, s') ->
  status resp = 200 ->
  generateCertificateHash (certificate_record a b c d n) <> Ok ZeroHash ->
  destructure_body rq' = Ok (K, certificate_record a' b' c' d' n') ->
  a' <> a \/ b' <> b \/ c' <> c \/ d' <> d \/ n' <> n ->
  let text := toUtf8Bytes (canonical_json a b c d n) in
  let text' := toUtf8Bytes (canonical_json a' b' c' d' n') in
  exists verdict,
    POST_verify E (Ok rq') s' = (Ok verdict, s')
    /\ status verdict = 200
    /\ generateCertificateHash (certificate_record a b c d n)
       = Ok (keccak256 text)
    /\ generateCertificateHash (certificate_record a' b' c' d' n')
       = Ok (keccak256 text')
    /\ text' <> text
    /\ data_field verdict "verified" = JsBool true
    /\ data_field verdict "localHash" = JsString (keccak256 text')
    /\ data_field verdict "blockchainHash" = JsString (keccak256 text)
    /\ (verdict_of verdict = Some AnchoredButMismatch
        /\ data_field verdict "hashMatch" = JsBool false
        /\ Keccak.keccak256_bytes text' <> Keccak.keccak256_bytes text
        \/
        verdict_of verdict = Some AnchoredAndMatches
        /\ data_field verdict "hashMatch" = JsBool true
        /\ Keccak.keccak256_bytes text' = Keccak.keccak256_bytes text).
Proof.
  intros Hlaw Hb Hrun Hst Hnz Hb' Hdiff text text'.
  destruct (POST_store_success_inv E rq K _ s s' resp Hb Hrun Hst)
    as (h & tx & (_ & HK & _) & Hh & H32 & Hsub & _).
  rewrite certificate_record_hash in Hh, Hnz.
  apply Ok_inj in Hh. fold text in Hh, Hnz. subst h.
  destruct (Hlaw K _ s tx s' H32 Hsub) as (ts & iss & Hq).
  assert (Hwf' : well_formed_request rq' K
                   (certificate_record a' b' c' d' n'))
    by (repeat split; assumption).
  assert (Htext : text' <> text).
  { apply tampered_record_has_another_text.
    intros Heq.
    assert (Hf : a' = a /\ b' = b /\ c' = c /\ d' = d /\ n' = n).
    { unfold certificate_record in Heq.
      injection Heq as -> -> -> -> ->. now repeat split. }
    destruct Hf as (Ha & Hb0 & Hc & Hd & Hn).
    destruct Hdiff as [H | [H | [H | [H | H]]]]; now apply H. }
  exists (compared_response (keccak256 text') (keccak256 text)
            (Number_of_bigint ts) iss).
  rewrite (POST_verify_run E rq' K _ (keccak256 text') s' Hwf'
             (certificate_record_hash a' b' c' d' n')), Hq.
  cbn [fst].
  assert (Hz : (keccak256 text =? ZeroHash)%string = false).
  { apply String.eqb_neq. intros Heq. apply Hnz. now rewrite Heq. }
  rewrite Hz.
  split; [reflexivity |]. split; [reflexivity |].
  split; [apply certificate_record_hash |].
  split; [apply certificate_record_hash |].
  split; [exact Htext |].
  split; [reflexivity |]. split; [reflexivity |]. split; [reflexivity |].
  unfold compared_response.
  destruct (String.eqb_spec (keccak256 text') (keccak256 text))
    as [Heq | Hne].
  - right. split; [reflexivity |]. split; [reflexivity |].
    apply hexlify_inj; [apply keccak256_bytes_range .. | exact Heq].
  - left. split; [reflexivity |]. split; [reflexivity |].
    intros Heq. apply Hne. unfold keccak256. now rewrite Heq.
Qed.

(** The example of the documentation with another recipient: the verdict is
    a mismatch between the fingerprint of the request and the one on the
    ledger. *)
Lemma tampered_record_is_a_mismatch_witness :
  exists verdict,
    POST_verify MemoryLedger.client (Ok tampered_request)
      example_anchored_state
    = (Ok verdict, example_anchored_state)
    /\ verdict_of verdict = Some AnchoredButMismatch
    /\ data_field verdict "localHash" = JsString tampered_fingerprint
    /\ data_field verdict "blockchainHash" = JsString example_fingerprint.
Proof.
  destruct (tampered_record_is_a_mismatch MemoryLedger.client
              example_request tampered_request example_key
              "CERT-2025-ABC123" "John Doe" "Achievement" "2025-01-15"
              "CERT-2025-ABC123" "Jane Doe" "Achievement" "2025-01-15"
              1 1 MemoryLedger.empty example_anchored_state
              example_store_response)
    as (verdict & Hv & _ & _ & _ & _ & _ & Hl & Hb & Hcase).
  - exact MemoryLedger_store_then_query.
  - reflexivity.
  - vm_compute. reflexivity.
  - reflexivity.
  - vm_compute. discriminate.
  - reflexivity.
  - right. left. discriminate.
  - exists verdict. split; [exact Hv |].
    assert (Hl' : JsString
                    (keccak256
                       (toUtf8Bytes
                          (canonical_json "CERT-2025-ABC123" "Jane Doe"
                             "Achievement" "2025-01-15" 1)))
                  = JsString tampered_fingerprint)
      by (vm_compute; reflexivity).
    assert (Hb' : JsString
                    (keccak256
                       (toUtf8Bytes
                          (canonical_json "CERT-2025-ABC123" "John Doe"
                             "Achievement" "2025-01-15" 1)))
                  = JsString example_fingerprint)
      by (vm_compute; reflexivity).
    split; [| split; [exact (eq_trans Hl Hl') | exact (eq_trans Hb Hb')]].
    destruct Hcase as [(Hm & _ & _) | (_ & _ & Hcol)]; [exact Hm |].
    exfalso. revert Hcol. vm_compute. discriminate.
Defined.

(** [Number] on timestamps: exact on a block time, rounded to the nearest
    even 53-bit significand above 2^53. *)
Example Number_of_bigint_rounds :
  Number_of_bigint 1700000000 = 1700000000
  /\ Number_of_bigint (2 ^ 53 + 1) = 2 ^ 53
  /\ Number_of_bigint (2 ^ 53 + 3) = 2 ^ 53 + 4
  /\ Number_of_bigint (2 ^ 256 - 1) = 2 ^ 256.
Proof. repeat split; vm_compute; reflexivity. Qed.
